(** * Flow-log parser: lookup-table loading, classification, aggregation, report

    A shallow embedding of [src/flow_log_parser.py].

    - Text is modelled with [string]; a character stands for a code point
      below 256, on which Python's [str.isspace] and [str.lower] are written
      out in full.
    - A text file is the list of lines that iterating over the open file
      yields (each line still carrying its line terminator, if it has one).
    - A Python [dict] is a [gmap]; [defaultdict] reads are written out with
      their default value.  Counters are Python integers, hence [Z].
    - An exception that leaves a function is a [Raise] result. *)

From Stdlib Require Import ZArith Ascii DecimalString.
From Stdlib Require String DecimalZ.
From stdpp Require Import gmap strings list fin_maps sorting.

Local Open Scope Z_scope.

(** ** Python string primitives *)

Module Py.

(** [str.isspace] on one character: TAB..CR, FS..US, space, NEL, NBSP. *)
Definition isspace (c : ascii) : bool :=
  let n := N_of_ascii c in
  ((9 <=? n) && (n <=? 13) || (28 <=? n) && (n <=? 32)
   || (n =? 133) || (n =? 160))%N.

(** [str.lower] on one character: A..Z and the Latin-1 capitals
    (U+00C0..U+00DE without the multiplication sign U+00D7). *)
Definition lower_char (c : ascii) : ascii :=
  let n := N_of_ascii c in
  if ((65 <=? n) && (n <=? 90)
      || (192 <=? n) && (n <=? 222) && negb (n =? 215))%N
  then ascii_of_N (n + 32) else c.

Fixpoint lower (s : string) : string :=
  match s with
  | "" => ""
  | String c s' => String (lower_char c) (lower s')
  end.

Fixpoint lstrip (s : string) : string :=
  match s with
  | "" => ""
  | String c s' => if isspace c then lstrip s' else s
  end.

Fixpoint rstrip (s : string) : string :=
  match s with
  | "" => ""
  | String c s' =>
      match rstrip s' with
      | "" => if isspace c then "" else String c ""
      | r => String c r
      end
  end.

(** [s.strip()] *)
Definition strip (s : string) : string := rstrip (lstrip s).

(** [c in s] for a one-character [c] *)
Fixpoint contains (c : ascii) (s : string) : bool :=
  match s with
  | "" => false
  | String d s' => if decide (d = c) then true else contains c s'
  end.

(** [s.count(c)] for a one-character [c] *)
Fixpoint count (c : ascii) (s : string) : nat :=
  match s with
  | "" => O
  | String d s' => if decide (d = c) then S (count c s') else count c s'
  end.

(** [s.split(sep)] for a one-character separator: empty fields are kept,
    and the empty string splits into one empty field. *)
Fixpoint split (sep : ascii) (s : string) : list string :=
  match s with
  | "" => [""]
  | String c s' =>
      if decide (c = sep) then "" :: split sep s'
      else match split sep s' with
           | f :: fs => String c f :: fs
           | [] => [String c ""]
           end
  end.

(** [s.split()]: fields are the maximal runs of non-whitespace characters;
    [cur] is the field being read, reversed. *)
Fixpoint split_ws_go (cur : string) (s : string) : list string :=
  match s with
  | "" => match cur with "" => [] | _ => [String.rev cur] end
  | String c s' =>
      if isspace c
      then match cur with
           | "" => split_ws_go "" s'
           | _ => String.rev cur :: split_ws_go "" s'
           end
      else split_ws_go (String c cur) s'
  end.

Definition split_ws (s : string) : list string := split_ws_go "" s.

(** [str(n)] / [f"{n}"] for an integer *)
Definition str_of_int (n : Z) : string := NilZero.string_of_int (Z.to_int n).

(** [s1 < s2] on strings: lexicographic on code points *)
Definition str_lt (s1 s2 : string) : bool := String.ltb s1 s2.

(** [m < n] on integers *)
Definition int_lt (m n : Z) : bool := bool_decide (m < n).

(** The line feed character and the one-character string ["\n"]. *)
Definition LF : ascii := ascii_of_nat 10.
Definition nl : string := String LF "".

End Py.

(** ** Exceptions *)

Inductive exn : Type := ValueError.

Inductive result (A : Type) : Type :=
| Ok (a : A)
| Raise (e : exn).
Arguments Ok {A} a.
Arguments Raise {A} e.

(** Sequencing: an exception raised by the first step skips the rest. *)
#[global] Instance result_bind : MBind result := fun A B k r =>
  match r with
  | Ok a => k a
  | Raise e => Raise e
  end.

(** ** The lookup table loader *)

Abbreviation lookup_key := (string * string)%type.
Abbreviation lookup_table := (gmap (string * string) (list string)).

(** [lookup_dict[key].append(tag)] on a [defaultdict(list)] *)
Definition append_tag (key : lookup_key) (tag : string)
    (lookup_dict : lookup_table) : lookup_table :=
  <[key := default [] (lookup_dict !! key) ++ [tag]]> lookup_dict.

(** [dstport, protocol, tag = items]: unpacking any number of items other
    than three raises [ValueError]. *)
Definition unpack3 (items : list string) : result (string * string * string) :=
  match items with
  | [dstport; protocol; tag] => Ok (dstport, protocol, tag)
  | _ => Raise ValueError
  end.

(** The body of the loop of [load_lookup_table] (lines 21-26). *)
Definition load_line (lookup_dict : lookup_table) (line : string)
    : result lookup_table :=
  let line := Py.strip line in
  if bool_decide (line = "") || negb (Py.contains "," line)
  then Ok lookup_dict
  else
    '(dstport, protocol, tag) ←
      unpack3 ((fun item => Py.lower (Py.strip item)) <$> Py.split "," line);
    Ok (append_tag (dstport, protocol) tag lookup_dict).

Fixpoint load_lines (lookup_dict : lookup_table) (file : list string)
    : result lookup_table :=
  match file with
  | [] => Ok lookup_dict
  | line :: file' =>
      lookup_dict' ← load_line lookup_dict line;
      load_lines lookup_dict' file'
  end.

Definition load_lookup_table (lookup_file : list string) : result lookup_table :=
  load_lines ∅ lookup_file.

(** ** The flow-log pass *)

(** [counts[key] += 1] on a [defaultdict(int)]: an absent key reads as 0. *)
Definition incr `{Countable K} (key : K) (counts : gmap K Z) : gmap K Z :=
  <[key := default 0 (counts !! key) + 1]> counts.

(** The count a table holds for a key, 0 when the key is absent. *)
Definition count_of `{Countable K} (counts : gmap K Z) (key : K) : Z :=
  default 0 (counts !! key).

(** Line 57: the protocol name of a protocol number. *)
Definition resolve_protocol (protocol_num : string) : string :=
  if decide (protocol_num = "6") then "tcp"
  else if decide (protocol_num = "17") then "udp"
  else "icmp".

(** Line 59: [lookup_dict.get((dstport, protocol), ["Untagged"])]. *)
Definition resolve_tags (lookup_dict : lookup_table) (key : lookup_key)
    : list string :=
  default ["Untagged"] (lookup_dict !! key).

(** Lines 60-61: one increment per element of the tag list. *)
Definition count_tags (tags : list string) (tag_counts : gmap string Z)
    : gmap string Z :=
  foldl (fun counts tag => incr tag counts) tag_counts tags.

(** What [logging.info] is handed at line 66: the three interpolated values
    (the rendering of the message is left out). *)
Record log_record : Type := LogRecord {
  log_port : string;
  log_protocol : string;
  log_tags : list string
}.

(** The two tables of [parse_flow_logs] and the diagnostics emitted so far. *)
Record flow_state : Type := FlowState {
  tag_counts : gmap string Z;
  port_protocol_counts : gmap (string * string) Z;
  emitted : list log_record
}.

(** The body of the loop of [parse_flow_logs] (lines 46-66).  The two
    [continue] statements return the state as it is; past the length test
    both indices are in range. *)
Definition process_line (lookup_dict : lookup_table) (verbosity : Z)
    (st : flow_state) (line : string) : flow_state :=
  let line := Py.strip line in
  if decide (line = "") then st
  else
    let fields := Py.split_ws line in
    if decide (length fields < 14)%nat then st
    else
      let dstport := fields !!! 4%nat in
      let protocol_num := fields !!! 6%nat in
      let protocol := resolve_protocol protocol_num in
      let tags := resolve_tags lookup_dict (dstport, protocol) in
      {| tag_counts := count_tags tags (tag_counts st);
         port_protocol_counts :=
           incr (dstport, protocol) (port_protocol_counts st);
         emitted :=
           if decide (2 <= verbosity)
           then emitted st ++ [LogRecord dstport protocol tags]
           else emitted st |}.

Definition initial_state : flow_state :=
  {| tag_counts := ∅; port_protocol_counts := ∅; emitted := [] |}.

(** The whole pass, diagnostics included. *)
Definition run_flow_logs (log_file : list string) (lookup_dict : lookup_table)
    (verbosity : Z) : flow_state :=
  foldl (process_line lookup_dict verbosity) initial_state log_file.

(** The value [parse_flow_logs] returns: the pair of tables. *)
Definition parse_flow_logs (log_file : list string) (lookup_dict : lookup_table)
    (verbosity : Z) : gmap string Z * gmap (string * string) Z :=
  let st := run_flow_logs log_file lookup_dict verbosity in
  (tag_counts st, port_protocol_counts st).

(** ** The report writer *)

(** [x < y] on tuples of two components: the first components decide
    unless they are equal, in which case the second ones do. *)
Definition tuple_lt {A B : Type} `{EqDecision A}
    (lt1 : A -> A -> bool) (lt2 : B -> B -> bool) (x y : A * B) : bool :=
  if decide (x.1 = y.1) then lt2 x.2 y.2 else lt1 x.1 y.1.

(** [<] on the keys [(port, protocol)], and on the items [(key, count)] of
    the two tables. *)
Definition pair_lt : string * string -> string * string -> bool :=
  tuple_lt Py.str_lt Py.str_lt.

Definition tag_item_lt : string * Z -> string * Z -> bool :=
  tuple_lt Py.str_lt Py.int_lt.

Definition port_item_lt : string * string * Z -> string * string * Z -> bool :=
  tuple_lt pair_lt Py.int_lt.

(** [sorted]: a stable sort that only asks [<]; an element moves past those
    strictly below it. *)
Fixpoint insert_by {A : Type} (lt : A -> A -> bool) (x : A) (l : list A)
    : list A :=
  match l with
  | [] => [x]
  | y :: l' => if lt y x then y :: insert_by lt x l' else x :: l
  end.

Fixpoint sorted {A : Type} (lt : A -> A -> bool) (l : list A) : list A :=
  match l with
  | [] => []
  | x :: l' => insert_by lt x (sorted lt l')
  end.

Definition tag_row (item : string * Z) : string :=
  item.1 +:+ "," +:+ Py.str_of_int item.2 +:+ Py.nl.

Definition port_row (item : string * string * Z) : string :=
  item.1.1 +:+ "," +:+ item.1.2 +:+ "," +:+ Py.str_of_int item.2 +:+ Py.nl.

(** The sequence of [file.write] calls of [save_results], given what
    [tag_counts.items()] and [port_protocol_counts.items()] yield: a dict
    yields its entries in the order of their insertion, which is one
    enumeration of them among others. *)
Definition save_results_items (tag_items : list (string * Z))
    (port_items : list (string * string * Z)) : list string :=
  ["Tag Counts:" +:+ Py.nl; "Tag,Count" +:+ Py.nl]
  ++ (tag_row <$> sorted tag_item_lt tag_items)
  ++ [Py.nl +:+ "Port/Protocol Combination Counts:" +:+ Py.nl;
      "Port,Protocol,Count" +:+ Py.nl]
  ++ (port_row <$> sorted port_item_lt port_items).

(** The same on two tables, enumerated as the map enumerates them. *)
Definition save_results_writes (tag_counts : gmap string Z)
    (port_protocol_counts : gmap (string * string) Z) : list string :=
  save_results_items (map_to_list tag_counts)
    (map_to_list port_protocol_counts).

(** What a file opened with mode ['w'] holds after a sequence of writes. *)
Definition written (writes : list string) : string :=
  foldr String.append "" writes.

(** The content of the output file once [save_results] has returned. *)
Definition save_results (tag_counts : gmap string Z)
    (port_protocol_counts : gmap (string * string) Z) : string :=
  written (save_results_writes tag_counts port_protocol_counts).

(** ** The pipeline *)

(** [main], with the two input files and the verbosity in place of the
    parsed command line: the content of the output file, or the exception
    that ends the run. *)
Definition main (lookup_file log_file : list string) (verbosity : Z)
    : result string :=
  lookup_dict ← load_lookup_table lookup_file;
  let '(tag_counts, port_protocol_counts) :=
    parse_flow_logs log_file lookup_dict verbosity in
  Ok (save_results tag_counts port_protocol_counts).

(** ** Notions the properties are stated with *)

(** What a well-formed line contributes, in the words of the format: a line
    whose stripped text has exactly three comma-separated fields gives the
    key made of the first two and the tag in the third, each trimmed and
    lowercased; any other line gives nothing. *)
Definition rule_of_line (line : string) : option (lookup_key * string) :=
  match Py.split "," (Py.strip line) with
  | [port; protocol; tag] =>
      Some ((Py.lower (Py.strip port), Py.lower (Py.strip protocol)),
            Py.lower (Py.strip tag))
  | _ => None
  end.

(** The tags the well-formed lines of a file give to a key, in file order. *)
Definition tags_of_key (key : lookup_key) (file : list string) : list string :=
  omap (fun line =>
          '(key', tag) ← rule_of_line line;
          if decide (key' = key) then Some tag else None) file.

(** A line the loader goes past: no comma at all (blank lines included), or
    exactly two. *)
Definition loadable (line : string) : Prop :=
  Py.count "," (Py.strip line) = 0%nat \/ Py.count "," (Py.strip line) = 2%nat.

(** The number of times [tag] stands in [tags]. *)
Definition occurrences (tag : string) (tags : list string) : nat :=
  length (filter (fun t => t = tag) tags).

(** The sum of all the counts of a table. *)
Definition total_count `{Countable K} (counts : gmap K Z) : Z :=
  map_fold (fun _ n acc => n + acc) 0 counts.

(** The destination port and the protocol name of a record. *)
Definition dstport_of (line : string) : string := Py.split_ws line !!! 4%nat.
Definition protocol_of (line : string) : string :=
  resolve_protocol (Py.split_ws line !!! 6%nat).

(** A strict total order given as a boolean test. *)
Class StrictTotal {A : Type} (lt : A -> A -> bool) : Prop := {
  lt_irrefl x : lt x x = false;
  lt_trans x y z : lt x y = true -> lt y z = true -> lt x z = true;
  lt_total x y : lt x y = false -> lt y x = false -> x = y
}.

(** [x] may stand before [y] in a list sorted by [lt]. *)
Definition not_after {A : Type} (lt : A -> A -> bool) (x y : A) : Prop :=
  lt y x = false.

(** A record the pass counts: a line of at least 14 whitespace-separated
    fields. *)
Definition classified (line : string) : Prop :=
  (14 <= length (Py.split_ws line))%nat.

#[global] Instance classified_dec (line : string) : Decision (classified line) :=
  decide (14 <= length (Py.split_ws line))%nat.

(** The key of a record, and the records of a log file, in file order. *)
Definition record_key (line : string) : lookup_key :=
  (dstport_of line, protocol_of line).

Definition records (log_file : list string) : list string :=
  filter classified log_file.

(** The diagnostic emitted for a record. *)
Definition record_log (lookup_dict : lookup_table) (line : string)
    : log_record :=
  LogRecord (dstport_of line) (protocol_of line)
    (resolve_tags lookup_dict (record_key line)).

#[global] Instance loadable_dec (line : string) : Decision (loadable line) :=
  or_dec (decide (Py.count "," (Py.strip line) = 0%nat))
         (decide (Py.count "," (Py.strip line) = 2%nat)).

(** A string that stripping and lowercasing leave as it is. *)
Definition normalized (s : string) : Prop :=
  Py.strip s = s /\ Py.lower s = s.

(** A string without any whitespace character. *)
Definition no_space (s : string) : Prop :=
  forall c, c ∈ String.list_ascii_of_string s -> Py.isspace c = false.

(** The report of two empty tables: the headers and the empty line. *)
Definition empty_report : string :=
  "Tag Counts:" +:+ Py.nl +:+
  "Tag,Count" +:+ Py.nl +:+
  Py.nl +:+
  "Port/Protocol Combination Counts:" +:+ Py.nl +:+
  "Port,Protocol,Count" +:+ Py.nl.

(** ** Sample inputs *)

Definition sample_lookup_file : list string :=
  ["25,tcp,sv_P1" +:+ Py.nl; Py.nl; "443,tcp,First" +:+ Py.nl;
   "no rule on this line" +:+ Py.nl; "68,udp,sv_P2" +:+ Py.nl;
   "   " +:+ Py.nl; " 443 , TCP , second " +:+ Py.nl].

(** A record of 14 fields with the given port (field 4) and protocol number
    (field 6), and a lookup table with two tags under one key. *)
Definition sample_record (port protocol_num : string) : string :=
  "2 123456789012 eni-0a1b2c3d 10.0.1.201 " +:+ port +:+ " 49153 "
  +:+ protocol_num
  +:+ " 25 20000 1620140761 1620140821 ACCEPT OK -" +:+ Py.nl.

Definition sample_lookup_dict : lookup_table :=
  {[ ("25", "tcp") := ["sv_p1"; "mail"] ]}.

Definition sample_log_file : list string :=
  [sample_record "25" "6"; "too short" +:+ Py.nl; Py.nl;
   sample_record "9999" "6"; sample_record "25" "6"].

(** The table the sample lookup file loads to. *)
Definition sample_loaded : lookup_table :=
  <[("25", "tcp") := ["sv_p1"]]>
    (<[("443", "tcp") := ["first"; "second"]]>
       {[ ("68", "udp") := ["sv_p2"] ]}).

(** * Properties *)

(** ** Facts about the string primitives *)

Section py_strings.
Implicit Types (s r : string) (c sep : ascii).

Lemma contains_count c s : Py.contains c s = false <-> Py.count c s = O.
Proof.
  induction s as [|d s IH]; simpl; [done|].
  destruct (decide (d = c)); [split; discriminate | exact IH].
Qed.

Lemma contains_app c s r :
  Py.contains c (s +:+ r) = Py.contains c s || Py.contains c r.
Proof.
  induction s as [|d s IH]; simpl; [done|].
  destruct (decide (d = c)); auto.
Qed.

Lemma count_app c s r :
  Py.count c (s +:+ r) = (Py.count c s + Py.count c r)%nat.
Proof.
  induction s as [|d s IH]; simpl; [done|].
  destruct (decide (d = c)); simpl; auto.
Qed.

(** A split never comes back empty, and it has one field more than the
    string has separators. *)
Lemma length_split sep s : length (Py.split sep s) = S (Py.count sep s).
Proof.
  induction s as [|c s IH]; simpl; [done|].
  destruct (decide (c = sep)); simpl; [by rewrite IH|].
  destruct (Py.split sep s); simpl in *; [discriminate | done].
Qed.

Lemma split_no_sep sep s : Py.contains sep s = false -> Py.split sep s = [s].
Proof.
  induction s as [|c s IH]; simpl; [done|].
  destruct (decide (c = sep)); [discriminate|].
  intros Hs. by rewrite (IH Hs).
Qed.

Lemma split_app_sep sep s r :
  Py.contains sep s = false ->
  Py.split sep (s +:+ String sep r) = s :: Py.split sep r.
Proof.
  induction s as [|c s IH]; simpl.
  - intros _. by rewrite decide_True.
  - destruct (decide (c = sep)); [discriminate|].
    intros Hs. by rewrite (IH Hs).
Qed.

(** Three comma-free fields joined by commas split back into themselves. *)
Lemma split_three a b t :
  Py.contains "," a = false -> Py.contains "," b = false ->
  Py.contains "," t = false ->
  Py.split "," (a +:+ "," +:+ b +:+ "," +:+ t) = [a; b; t].
Proof.
  intros Ha Hb Ht.
  change ("," +:+ b +:+ "," +:+ t) with (String "," (b +:+ String "," t)).
  rewrite (split_app_sep _ _ _ Ha), (split_app_sep _ _ _ Hb).
  by rewrite (split_no_sep _ _ Ht).
Qed.

(** A string has exactly three fields iff it has exactly two separators. *)
Lemma split_three_fields sep s :
  Py.count sep s = 2%nat <-> exists a b t, Py.split sep s = [a; b; t].
Proof.
  split.
  - intros Hc. pose proof (length_split sep s) as Hl. rewrite Hc in Hl.
    destruct (Py.split sep s) as [|a [|b [|t [|? ?]]]]; simplify_eq/=.
    by exists a, b, t.
  - intros (a & b & t & Hs). pose proof (length_split sep s) as Hl.
    rewrite Hs in Hl. simpl in Hl. lia.
Qed.

Lemma lstrip_split_ws s : Py.split_ws (Py.lstrip s) = Py.split_ws s.
Proof.
  unfold Py.split_ws. induction s as [|c s IH]; simpl; [done|].
  destruct (Py.isspace c) eqn:Hc; [done|]. simpl. by rewrite Hc.
Qed.

Lemma rstrip_cons c s :
  Py.rstrip (String c s) =
  if bool_decide (Py.rstrip s = "") && Py.isspace c then ""
  else String c (Py.rstrip s).
Proof.
  simpl. destruct (Py.rstrip s); [|done]. by destruct (Py.isspace c).
Qed.

Lemma rstrip_split_ws_go cur s :
  Py.split_ws_go cur (Py.rstrip s) = Py.split_ws_go cur s.
Proof.
  revert cur. induction s as [|c s IH]; intros cur; [done|].
  rewrite rstrip_cons.
  destruct (bool_decide (Py.rstrip s = "") && Py.isspace c) eqn:Hb.
  - apply andb_true_iff in Hb as [Hr%bool_decide_eq_true Hc].
    cbn [Py.split_ws_go]. rewrite Hc, <-(IH ""), Hr. by destruct cur.
  - cbn [Py.split_ws_go]. destruct (Py.isspace c); [|apply IH].
    rewrite (IH ""). by destruct cur.
Qed.

(** Stripping a line does not change its whitespace-separated fields. *)
Lemma strip_split_ws s : Py.split_ws (Py.strip s) = Py.split_ws s.
Proof.
  unfold Py.strip. rewrite <-(lstrip_split_ws s).
  apply rstrip_split_ws_go.
Qed.

Lemma split_ws_empty s : Py.strip s = "" -> Py.split_ws s = [].
Proof. intros Hs. by rewrite <-strip_split_ws, Hs. Qed.

Lemma lower_char_idemp c : Py.lower_char (Py.lower_char c) = Py.lower_char c.
Proof. by destruct c as [[] [] [] [] [] [] [] []]. Qed.

(** Lowercasing is idempotent: its result has no capital left. *)
Lemma lower_idemp s : Py.lower (Py.lower s) = Py.lower s.
Proof.
  induction s as [|c s IH]; simpl; [done|].
  by rewrite lower_char_idemp, IH.
Qed.

Lemma lstrip_idemp s : Py.lstrip (Py.lstrip s) = Py.lstrip s.
Proof.
  induction s as [|c s IH]; simpl; [done|].
  destruct (Py.isspace c) eqn:Hc; [done|]. simpl. by rewrite Hc.
Qed.

Lemma rstrip_idemp s : Py.rstrip (Py.rstrip s) = Py.rstrip s.
Proof.
  induction s as [|c s IH]; [done|].
  rewrite rstrip_cons.
  destruct (bool_decide (Py.rstrip s = "") && Py.isspace c) eqn:Hb; [done|].
  rewrite rstrip_cons, IH. by rewrite Hb.
Qed.

(** What is stripped off a string is whitespace only. *)
Lemma lstrip_spec s :
  exists ws, s = ws +:+ Py.lstrip s /\
    forall c, c ∈ String.list_ascii_of_string ws -> Py.isspace c = true.
Proof.
  induction s as [|c s (ws & Hs & Hws)]; simpl.
  - exists "". split; [done|]. intros c; simpl. by rewrite elem_of_nil.
  - destruct (Py.isspace c) eqn:Hc.
    + exists (String c ws). split.
      * change (String c s = String c (ws +:+ Py.lstrip s)). by f_equal.
      * simpl. intros d [->|?]%elem_of_cons; auto.
    + exists "". split; [done|]. intros d; simpl. by rewrite elem_of_nil.
Qed.

Lemma rstrip_spec s :
  exists ws, s = Py.rstrip s +:+ ws /\
    forall c, c ∈ String.list_ascii_of_string ws -> Py.isspace c = true.
Proof.
  induction s as [|c s (ws & Hs & Hws)].
  - exists "". split; [done|]. intros c; simpl. by rewrite elem_of_nil.
  - rewrite rstrip_cons.
    destruct (bool_decide (Py.rstrip s = "") && Py.isspace c) eqn:Hb.
    + apply andb_true_iff in Hb as [Hr%bool_decide_eq_true Hc].
      exists (String c ws). rewrite Hr in Hs. split.
      * change (String c s = String c ws). by f_equal.
      * simpl. intros e [->|?]%elem_of_cons; auto.
    + exists ws. split; [|done].
      change (String c s = String c (Py.rstrip s +:+ ws)). by f_equal.
Qed.

End py_strings.

(** ** The lookup table loader *)

Section loader.
Implicit Types (lookup_dict : lookup_table) (line : string).

Lemma load_line_skip lookup_dict line :
  Py.count "," (Py.strip line) = 0%nat ->
  load_line lookup_dict line = Ok lookup_dict.
Proof.
  intros Hc%contains_count. unfold load_line. rewrite Hc. simpl.
  by rewrite orb_true_r.
Qed.

Lemma load_line_guard line :
  Py.count "," (Py.strip line) ≠ 0%nat ->
  bool_decide (Py.strip line = "") || negb (Py.contains "," (Py.strip line))
  = false.
Proof.
  intros Hc. apply orb_false_iff. split.
  - apply bool_decide_eq_false. intros He. by rewrite He in Hc.
  - apply negb_false_iff. destruct (Py.contains _ _) eqn:Hn; [done|].
    by apply contains_count in Hn.
Qed.

Lemma load_line_rule lookup_dict line key tag :
  rule_of_line line = Some (key, tag) ->
  load_line lookup_dict line = Ok (append_tag key tag lookup_dict).
Proof.
  unfold rule_of_line, load_line. intros Hr.
  pose proof (length_split "," (Py.strip line)) as Hl.
  destruct (Py.split "," (Py.strip line)) as [|a [|b [|t [|? ?]]]] eqn:Hs;
    simplify_eq/=.
  by rewrite load_line_guard by lia.
Qed.

Lemma load_line_raise lookup_dict line :
  ¬ loadable line -> load_line lookup_dict line = Raise ValueError.
Proof.
  unfold loadable, load_line. intros Hn.
  rewrite load_line_guard by tauto.
  pose proof (length_split "," (Py.strip line)) as Hl.
  destruct (Py.split "," (Py.strip line)) as [|a [|b [|t [|? ?]]]];
    simpl in *; try done.
  exfalso. apply Hn. right. lia.
Qed.

(** One line that is neither skipped nor well-formed aborts the whole load,
    wherever it stands in the file. *)
Lemma load_lines_raise lookup_dict (file : list string) :
  ¬ Forall loadable file -> load_lines lookup_dict file = Raise ValueError.
Proof.
  revert lookup_dict. induction file as [|line file IH]; intros d Hn.
  - destruct Hn. constructor.
  - simpl. destruct (load_line d line) as [d'|[]] eqn:Hl; [|done].
    simpl. apply IH. intros Hf. apply Hn. constructor; [|done].
    destruct (decide (Py.count "," (Py.strip line) = 0%nat)); [by left|].
    destruct (decide (Py.count "," (Py.strip line) = 2%nat)); [by right|].
    rewrite load_line_raise in Hl; [done|]. unfold loadable. tauto.
Qed.

Lemma rule_of_line_skip line :
  Py.count "," (Py.strip line) = 0%nat -> rule_of_line line = None.
Proof.
  intros Hc. unfold rule_of_line.
  pose proof (length_split "," (Py.strip line)) as Hl. rewrite Hc in Hl.
  by destruct (Py.split "," (Py.strip line)) as [|a [|b [|t [|? ?]]]].
Qed.

Lemma rule_of_line_two line :
  Py.count "," (Py.strip line) = 2%nat -> is_Some (rule_of_line line).
Proof.
  intros (a & b & t & Hs)%split_three_fields. unfold rule_of_line.
  rewrite Hs. eauto.
Qed.

Lemma append_tag_lookup lookup_dict key key' tag :
  default [] (append_tag key tag lookup_dict !! key') =
  default [] (lookup_dict !! key')
  ++ (if decide (key = key') then [tag] else []).
Proof.
  unfold append_tag. destruct (decide (key = key')) as [->|Hne].
  - by rewrite lookup_insert_eq.
  - rewrite lookup_insert_ne by done. by rewrite app_nil_r.
Qed.

Lemma append_tag_is_Some lookup_dict key key' tag :
  is_Some (append_tag key tag lookup_dict !! key') <->
  key = key' \/ is_Some (lookup_dict !! key').
Proof.
  unfold append_tag. rewrite lookup_insert_is_Some.
  destruct (decide (key = key')); tauto.
Qed.

(** The loop, from any table built so far. *)
Lemma load_lines_spec lookup_dict (file : list string) :
  Forall loadable file ->
  exists lookup_dict',
    load_lines lookup_dict file = Ok lookup_dict' /\
    forall key,
      default [] (lookup_dict' !! key) =
        default [] (lookup_dict !! key) ++ tags_of_key key file /\
      (is_Some (lookup_dict' !! key) <->
         is_Some (lookup_dict !! key) \/ tags_of_key key file ≠ []).
Proof.
  intros Hf. revert lookup_dict.
  induction Hf as [|line file Hline _ IH]; intros d.
  - exists d. split; [done|]. intros key. simpl. rewrite app_nil_r.
    split; [done|]. tauto.
  - destruct Hline as [H0|H2].
    + destruct (IH d) as (d' & Hd' & Hkeys). exists d'.
      simpl. rewrite (load_line_skip _ _ H0). split; [done|].
      intros key. unfold tags_of_key. simpl.
      rewrite (rule_of_line_skip _ H0). simpl. apply Hkeys.
    + destruct (rule_of_line_two _ H2) as [[key0 tag] Hr].
      destruct (IH (append_tag key0 tag d)) as (d' & Hd' & Hkeys).
      exists d'. simpl. rewrite (load_line_rule _ _ _ _ Hr).
      split; [done|]. intros key. destruct (Hkeys key) as [Hk1 Hk2].
      unfold tags_of_key in *. simpl. rewrite Hr. simpl.
      rewrite Hk1, Hk2, append_tag_lookup, append_tag_is_Some.
      destruct (decide (key0 = key)); simpl.
      * split; [by rewrite <-app_assoc|]. split; [by right|by left;left].
      * rewrite app_nil_r. split; [done|]. tauto.
Qed.

End loader.

(** C1, at the line ["80,tcp"]: a non-empty line with a single comma is not
    skipped.  Unpacking its two fields raises [ValueError], which ends the
    load of the file it stands in, the well-formed lines around it
    notwithstanding. *)
Theorem load_lookup_table_single_comma :
  let line := "80,tcp" +:+ Py.nl in
  Py.strip line ≠ "" /\
  (Py.count "," line < 2)%nat /\
  load_lookup_table [line] = Raise ValueError /\
  load_lookup_table ["25,tcp,sv_p1" +:+ Py.nl; line; "23,tcp,sv_p1" +:+ Py.nl]
  = Raise ValueError.
Proof.
  simpl. split; [by vm_compute|]. split; [vm_compute; lia|].
  split; apply load_lines_raise; intros Hf;
    repeat (apply Forall_cons in Hf as [? Hf]);
    match goal with H : loadable ("80,tcp" +:+ _) |- _ =>
      by destruct H as [H|H]; vm_compute in H end.
Qed.

(** C9: a line whose stripped text is three comma-free fields joined by
    commas is stored under the key made of the first two fields and with the
    third as its tag, each of the three trimmed and then lowercased; the tag
    is treated like the key fields, so its casing is lost. *)
Theorem load_line_normalizes (lookup_dict : lookup_table)
    (line port protocol tag : string) :
  Py.strip line = port +:+ "," +:+ protocol +:+ "," +:+ tag ->
  Py.contains "," port = false ->
  Py.contains "," protocol = false ->
  Py.contains "," tag = false ->
  let key := (Py.lower (Py.strip port), Py.lower (Py.strip protocol)) in
  let tag' := Py.lower (Py.strip tag) in
  load_line lookup_dict line = Ok (append_tag key tag' lookup_dict) /\
  append_tag key tag' lookup_dict !! key
  = Some (default [] (lookup_dict !! key) ++ [tag']) /\
  load_lookup_table [line] = Ok {[ key := [tag'] ]}.
Proof.
  intros Hline Hp Hq Ht key tag'.
  assert (rule_of_line line = Some (key, tag')) as Hr.
  { unfold rule_of_line. by rewrite Hline, split_three. }
  split; [by apply load_line_rule|]. split.
  - unfold append_tag. by rewrite lookup_insert_eq.
  - unfold load_lookup_table. simpl. rewrite (load_line_rule _ _ _ _ Hr).
    simpl. unfold append_tag. by rewrite lookup_empty, insert_empty.
Qed.

Lemma load_line_normalizes_witness :
  load_lookup_table ["  443 , TCP , SV_P2 " +:+ Py.nl]
  = Ok {[ ("443", "tcp") := ["sv_p2"] ]}.
Proof.
  apply (load_line_normalizes ∅ ("  443 , TCP , SV_P2 " +:+ Py.nl)
           "443 " " TCP " " SV_P2"); reflexivity.
Defined.

(** C6: on a file all of whose lines are either skipped or well-formed, the
    loader returns a table in which every key holds exactly the tags that the
    well-formed lines give to it, in file order; a key is present exactly
    when some line names it. *)
Theorem load_lookup_table_order (lookup_file : list string) :
  Forall loadable lookup_file ->
  exists lookup_dict,
    load_lookup_table lookup_file = Ok lookup_dict /\
    forall key,
      default [] (lookup_dict !! key) = tags_of_key key lookup_file /\
      (is_Some (lookup_dict !! key) <-> tags_of_key key lookup_file ≠ []).
Proof.
  intros Hf. destruct (load_lines_spec ∅ _ Hf) as (d & Hd & Hkeys).
  exists d. split; [done|]. intros key. destruct (Hkeys key) as [H1 H2].
  rewrite lookup_empty in H1, H2. simpl in H1. split; [done|].
  rewrite H2. split; [intros [[? ?]|?]; done | by right].
Qed.

Lemma load_lookup_table_order_witness :
  exists lookup_dict,
    load_lookup_table sample_lookup_file = Ok lookup_dict /\
    default [] (lookup_dict !! ("443", "tcp")) = ["first"; "second"].
Proof.
  destruct (load_lookup_table_order sample_lookup_file) as (d & Hd & Hkeys).
  - repeat constructor; first [by left | by right].
  - exists d. split; [exact Hd|]. exact (proj1 (Hkeys ("443", "tcp"))).
Defined.

(** ** The protocol resolver *)

(** C4: the resolver is a function defined on every string: it sends ["6"]
    to ["tcp"], ["17"] to ["udp"] and every other string, ["1"] and ["99"]
    among them, to ["icmp"]. *)
Theorem resolve_protocol_total :
  resolve_protocol "6" = "tcp" /\
  resolve_protocol "17" = "udp" /\
  resolve_protocol "1" = "icmp" /\
  resolve_protocol "99" = "icmp" /\
  (forall protocol_num : string,
     protocol_num ≠ "6" -> protocol_num ≠ "17" ->
     resolve_protocol protocol_num = "icmp") /\
  (forall protocol_num : string,
     resolve_protocol protocol_num ∈ ["tcp"; "udp"; "icmp"]).
Proof.
  repeat split; try reflexivity.
  - intros p H6 H17. unfold resolve_protocol. by rewrite !decide_False.
  - intros p. unfold resolve_protocol. repeat case_decide; set_solver.
Qed.

Lemma resolve_protocol_total_witness : resolve_protocol "tcp" = "icmp".
Proof.
  apply (proj1 (proj2 (proj2 (proj2 (proj2 resolve_protocol_total)))));
    discriminate.
Defined.

(** ** The flow-log pass *)

Section counters.
Context `{Countable K}.
Implicit Types (counts : gmap K Z) (key : K).

Lemma count_of_incr counts key key' :
  count_of (incr key counts) key' =
  count_of counts key' + (if decide (key' = key) then 1 else 0).
Proof.
  unfold count_of, incr. destruct (decide (key' = key)) as [->|Hne].
  - by rewrite lookup_insert_eq.
  - rewrite lookup_insert_ne by done. lia.
Qed.

Lemma total_count_insert_fresh counts key n :
  counts !! key = None -> total_count (<[key := n]> counts) = n + total_count counts.
Proof.
  intros Hk. unfold total_count. rewrite map_fold_insert_L; [done| |done].
  intros. lia.
Qed.

Lemma total_count_incr counts key :
  total_count (incr key counts) = total_count counts + 1.
Proof.
  unfold incr. destruct (counts !! key) as [n|] eqn:Hk; simpl.
  - rewrite <-(insert_delete_eq counts key (n + 1)).
    rewrite <-(insert_id counts key n Hk) at 2.
    rewrite <-(insert_delete_eq counts key n).
    rewrite !total_count_insert_fresh by apply lookup_delete_eq. lia.
  - rewrite total_count_insert_fresh by done. lia.
Qed.

(** Incrementing keeps every count of a table at 1 or more. *)
Lemma incr_positive counts key :
  map_Forall (fun _ n => 1 <= n) counts ->
  map_Forall (fun _ n => 1 <= n) (incr key counts).
Proof.
  intros Hpos. unfold incr. apply map_Forall_insert_2; [|done].
  destruct (counts !! key) as [n|] eqn:Hk; simpl; [|lia].
  specialize (Hpos key n Hk). simpl in Hpos. lia.
Qed.

End counters.

Section flow_logs.
Implicit Types (lookup_dict : lookup_table) (verbosity : Z).
Implicit Types (st : flow_state) (line : string).

Lemma count_of_count_tags tags (counts : gmap string Z) tag :
  count_of (count_tags tags counts) tag =
  count_of counts tag + Z.of_nat (occurrences tag tags).
Proof.
  unfold count_tags, occurrences. revert counts.
  induction tags as [|t tags IH]; intros counts; simpl; [lia|].
  rewrite IH, count_of_incr, filter_cons.
  destruct (decide (tag = t)) as [->|Hne].
  - rewrite decide_True by done. simpl. lia.
  - rewrite decide_False by done. lia.
Qed.

Lemma total_count_tags tags (counts : gmap string Z) :
  total_count (count_tags tags counts) =
  total_count counts + Z.of_nat (length tags).
Proof.
  unfold count_tags. revert counts.
  induction tags as [|t tags IH]; intros counts; simpl; [lia|].
  rewrite IH, total_count_incr. lia.
Qed.

Lemma count_tags_positive tags (counts : gmap string Z) :
  map_Forall (fun _ n => 1 <= n) counts ->
  map_Forall (fun _ n => 1 <= n) (count_tags tags counts).
Proof.
  unfold count_tags. revert counts.
  induction tags as [|t tags IH]; intros counts Hpos; simpl; [done|].
  apply IH. by apply incr_positive.
Qed.

Lemma process_line_skip_eq lookup_dict verbosity st line :
  Py.strip line = "" \/ (length (Py.split_ws line) < 14)%nat ->
  process_line lookup_dict verbosity st line = st.
Proof.
  intros Hs. unfold process_line.
  destruct (decide (Py.strip line = "")); [done|].
  rewrite strip_split_ws.
  destruct Hs as [?|Hlen]; [done|]. by rewrite decide_True.
Qed.

(** A line with 14 fields or more gets past both [continue] statements. *)
Lemma process_line_classified lookup_dict verbosity st line :
  (14 <= length (Py.split_ws line))%nat ->
  let tags := resolve_tags lookup_dict (dstport_of line, protocol_of line) in
  process_line lookup_dict verbosity st line =
  {| tag_counts := count_tags tags (tag_counts st);
     port_protocol_counts :=
       incr (dstport_of line, protocol_of line) (port_protocol_counts st);
     emitted :=
       if decide (2 <= verbosity)
       then emitted st
            ++ [LogRecord (dstport_of line) (protocol_of line) tags]
       else emitted st |}.
Proof.
  intros Hlen. unfold process_line, dstport_of, protocol_of.
  destruct (decide (Py.strip line = "")) as [He|_].
  { rewrite (split_ws_empty _ He) in Hlen. simpl in Hlen. lia. }
  rewrite strip_split_ws. by rewrite decide_False by lia.
Qed.



Lemma process_line_positive lookup_dict verbosity st line :
  map_Forall (fun _ n => 1 <= n) (tag_counts st) ->
  map_Forall (fun _ n => 1 <= n) (port_protocol_counts st) ->
  let st' := process_line lookup_dict verbosity st line in
  map_Forall (fun _ n => 1 <= n) (tag_counts st') /\
  map_Forall (fun _ n => 1 <= n) (port_protocol_counts st').
Proof.
  intros Ht Hp. unfold process_line. simpl.
  repeat case_decide; simpl; try done;
    auto using count_tags_positive, incr_positive.
Qed.

Lemma foldl_process_line_positive lookup_dict verbosity st log_file :
  map_Forall (fun _ n => 1 <= n) (tag_counts st) ->
  map_Forall (fun _ n => 1 <= n) (port_protocol_counts st) ->
  let st' := foldl (process_line lookup_dict verbosity) st log_file in
  map_Forall (fun _ n => 1 <= n) (tag_counts st') /\
  map_Forall (fun _ n => 1 <= n) (port_protocol_counts st').
Proof.
  revert st. induction log_file as [|line log_file IH];
    intros st Ht Hp; simpl; [done|].
  by apply IH; apply process_line_positive.
Qed.

End flow_logs.

(** C2: a record of at least 14 fields adds 1 to the Port/Protocol entry of
    its (port, protocol) and to no other entry, and adds to each tag the
    number of times the tag stands in the record's resolved tag list: the
    Port/Protocol table grows by 1 in total and the Tag table by the length
    of the tag list. *)
Theorem process_line_increments (lookup_dict : lookup_table) (verbosity : Z)
    (st : flow_state) (line : string) :
  (14 <= length (Py.split_ws line))%nat ->
  let key := (dstport_of line, protocol_of line) in
  let tags := resolve_tags lookup_dict key in
  let st' := process_line lookup_dict verbosity st line in
  (forall key',
     count_of (port_protocol_counts st') key' =
     count_of (port_protocol_counts st) key'
     + (if decide (key' = key) then 1 else 0)) /\
  total_count (port_protocol_counts st')
  = total_count (port_protocol_counts st) + 1 /\
  (forall tag,
     count_of (tag_counts st') tag =
     count_of (tag_counts st) tag + Z.of_nat (occurrences tag tags)) /\
  total_count (tag_counts st')
  = total_count (tag_counts st) + Z.of_nat (length tags).
Proof.
  intros Hlen key tags st'. subst st'.
  rewrite (process_line_classified _ _ _ _ Hlen). simpl.
  split; [intros key'; apply count_of_incr|].
  split; [apply total_count_incr|].
  split; [intros tag; apply count_of_count_tags|apply total_count_tags].
Qed.

Lemma process_line_increments_witness :
  let st' :=
    process_line sample_lookup_dict 2 initial_state (sample_record "25" "6") in
  total_count (port_protocol_counts st') = 0 + 1 /\
  total_count (tag_counts st') = 0 + 2.
Proof.
  destruct (process_line_increments sample_lookup_dict 2 initial_state
              (sample_record "25" "6")) as (_ & Hp & _ & Ht).
  - vm_compute. lia.
  - split; [exact Hp | exact Ht].
Defined.

(** C3: a record of at least 14 fields whose (port, protocol) is not a key
    of the lookup table resolves to the one-element tag list ["Untagged"]:
    it adds 1 to the count of ["Untagged"] and nothing to any other tag, and
    adds 1 to the Port/Protocol entry of its key. *)
Theorem process_line_untagged (lookup_dict : lookup_table) (verbosity : Z)
    (st : flow_state) (line : string) :
  (14 <= length (Py.split_ws line))%nat ->
  lookup_dict !! (dstport_of line, protocol_of line) = None ->
  let key := (dstport_of line, protocol_of line) in
  let st' := process_line lookup_dict verbosity st line in
  resolve_tags lookup_dict key = ["Untagged"] /\
  tag_counts st' = incr "Untagged" (tag_counts st) /\
  (forall tag,
     count_of (tag_counts st') tag =
     count_of (tag_counts st) tag
     + (if decide (tag = "Untagged") then 1 else 0)) /\
  count_of (port_protocol_counts st') key
  = count_of (port_protocol_counts st) key + 1.
Proof.
  intros Hlen Hnone key st'. subst st' key.
  assert (resolve_tags lookup_dict (dstport_of line, protocol_of line)
          = ["Untagged"]) as Htags.
  { unfold resolve_tags. by rewrite Hnone. }
  rewrite (process_line_classified _ _ _ _ Hlen). simpl. rewrite Htags.
  split; [done|]. split; [done|].
  split; [intros tag; apply count_of_incr|].
  rewrite count_of_incr. by rewrite decide_True.
Qed.

Lemma process_line_untagged_witness :
  let st' :=
    process_line sample_lookup_dict 0 initial_state
      (sample_record "9999" "6") in
  tag_counts st' = incr "Untagged" ∅ /\
  count_of (port_protocol_counts st') ("9999", "tcp") = 0 + 1.
Proof.
  destruct (process_line_untagged sample_lookup_dict 0 initial_state
              (sample_record "9999" "6")) as (_ & Ht & _ & Hp).
  - vm_compute. lia.
  - reflexivity.
  - split; [exact Ht | exact Hp].
Defined.

(** C5: a line that is empty once stripped, or that has fewer than 14
    whitespace-separated fields, leaves the state of the pass as it is (both
    tables, and the diagnostics), and the pass goes on: the file gives the
    same result as the file without that line. *)
Theorem process_line_skips (lookup_dict : lookup_table) (verbosity : Z)
    (st : flow_state) (line : string) :
  Py.strip line = "" \/ (length (Py.split_ws line) < 14)%nat ->
  process_line lookup_dict verbosity st line = st /\
  forall before after : list string,
    run_flow_logs (before ++ line :: after) lookup_dict verbosity
    = run_flow_logs (before ++ after) lookup_dict verbosity.
Proof.
  intros Hskip. split; [by apply process_line_skip_eq|].
  intros before after. unfold run_flow_logs.
  rewrite !foldl_app. simpl. by rewrite process_line_skip_eq.
Qed.

Lemma process_line_skips_witness :
  process_line sample_lookup_dict 2 initial_state
    ("2 123456789012 eni-0a1b2c3d 10.0.1.201 25 49153 6" +:+ Py.nl)
  = initial_state.
Proof.
  apply (process_line_skips sample_lookup_dict 2 initial_state
           ("2 123456789012 eni-0a1b2c3d 10.0.1.201 25 49153 6" +:+ Py.nl)).
  right. vm_compute. lia.
Defined.


(** The verbosity does show in the diagnostics: they are emitted at level 2
    and not below. *)
Example run_flow_logs_emitted :
  emitted (run_flow_logs sample_log_file sample_lookup_dict 1) = [] /\
  length (emitted (run_flow_logs sample_log_file sample_lookup_dict 2)) = 3%nat.
Proof. by vm_compute. Qed.

(** C10: every count held by either table that [parse_flow_logs] returns is
    at least 1. *)
Theorem parse_flow_logs_positive (log_file : list string)
    (lookup_dict : lookup_table) (verbosity : Z) :
  let result := parse_flow_logs log_file lookup_dict verbosity in
  (forall tag n, result.1 !! tag = Some n -> 1 <= n) /\
  (forall key n, result.2 !! key = Some n -> 1 <= n).
Proof.
  unfold parse_flow_logs, run_flow_logs. simpl.
  destruct (foldl_process_line_positive lookup_dict verbosity
              initial_state log_file) as [Ht Hp];
    [apply map_Forall_empty..|].
  split; [exact Ht | exact Hp].
Qed.

Lemma parse_flow_logs_positive_witness :
  (parse_flow_logs sample_log_file sample_lookup_dict 1).1 !! "mail" = Some 2
  /\ 1 <= 2.
Proof.
  assert ((parse_flow_logs sample_log_file sample_lookup_dict 1).1 !! "mail"
          = Some 2) as Hm by reflexivity.
  split; [exact Hm|].
  exact (proj1 (parse_flow_logs_positive sample_log_file sample_lookup_dict 1)
           "mail" 2 Hm).
Defined.

(** ** The report writer *)

Section orders.

Lemma lt_asym {A} (lt : A -> A -> bool) `{!StrictTotal lt} x y :
  lt x y = true -> lt y x = false.
Proof.
  intros Hxy. destruct (lt y x) eqn:Hyx; [|done].
  pose proof (lt_trans x y x Hxy Hyx) as Hxx. by rewrite lt_irrefl in Hxx.
Qed.

Lemma lt_connected {A} (lt : A -> A -> bool) `{!StrictTotal lt} x y :
  x ≠ y -> lt x y = true \/ lt y x = true.
Proof.
  intros Hne. destruct (lt x y) eqn:Hxy; [by left|].
  destruct (lt y x) eqn:Hyx; [by right|].
  destruct Hne. by apply (lt_total (lt:=lt)).
Qed.

Lemma compare_refl (s : string) : String.compare s s = Eq.
Proof.
  induction s as [|c s IH]; simpl; [done|].
  unfold Ascii.compare. by rewrite N.compare_refl.
Qed.

Lemma str_lt_le (s1 s2 : string) :
  Py.str_lt s1 s2 = true <-> String.le s1 s2 /\ s1 ≠ s2.
Proof.
  unfold Py.str_lt, String.ltb, String.le, String.leb.
  destruct (String.compare s1 s2) eqn:Hc; simpl.
  - apply String.compare_eq_iff in Hc. split; [done|]. by intros [_ ?].
  - split; [|done]. intros _. split; [done|].
    intros ->. by rewrite compare_refl in Hc.
  - split; [done|]. by intros [? _].
Qed.

#[global] Instance str_lt_strict_total : StrictTotal Py.str_lt.
Proof.
  split.
  - intros s. unfold Py.str_lt, String.ltb. by rewrite compare_refl.
  - intros s1 s2 s3 [H12 N12]%str_lt_le [H23 N23]%str_lt_le.
    apply str_lt_le. split; [by etrans|].
    intros ->. apply N12. by apply (anti_symm String.le).
  - intros s1 s2 H12 H21.
    destruct (decide (s1 = s2)) as [|Hne]; [done|].
    destruct (total String.le s1 s2).
    + assert (Py.str_lt s1 s2 = true) by (by apply str_lt_le). congruence.
    + assert (Py.str_lt s2 s1 = true) by (apply str_lt_le; auto). congruence.
Qed.

#[global] Instance int_lt_strict_total : StrictTotal Py.int_lt.
Proof.
  unfold Py.int_lt. split.
  - intros n. apply bool_decide_eq_false. lia.
  - intros a b c ?%bool_decide_eq_true ?%bool_decide_eq_true.
    apply bool_decide_eq_true. lia.
  - intros a b ?%bool_decide_eq_false ?%bool_decide_eq_false. lia.
Qed.

#[global] Instance tuple_lt_strict_total {A B} `{EqDecision A}
    (lt1 : A -> A -> bool) (lt2 : B -> B -> bool)
    `{!StrictTotal lt1, !StrictTotal lt2} :
  StrictTotal (tuple_lt lt1 lt2).
Proof.
  unfold tuple_lt. split.
  - intros [a b]. simpl. rewrite decide_True by done. apply lt_irrefl.
  - intros [a1 b1] [a2 b2] [a3 b3]; simpl. intros H12 H23.
    repeat case_decide; simplify_eq.
    + by apply (lt_trans b1 b2 b3).
    + done.
    + done.
    + by rewrite (lt_asym lt1 _ _ H12) in H23.
    + by apply (lt_trans a1 a2 a3).
  - intros [a1 b1] [a2 b2]; simpl. intros H12 H21.
    repeat case_decide; simplify_eq.
    + f_equal. by apply (lt_total (lt:=lt2)).
    + pose proof (lt_total (lt:=lt1) a1 a2 H12 H21). done.
Qed.

#[global] Instance pair_lt_strict_total : StrictTotal pair_lt.
Proof. unfold pair_lt. apply _. Qed.

(** The order on keys is the lexicographic one. *)
Lemma pair_lt_lexicographic (p1 q1 p2 q2 : string) :
  pair_lt (p1, q1) (p2, q2) = true <->
  Py.str_lt p1 p2 = true \/ (p1 = p2 /\ Py.str_lt q1 q2 = true).
Proof.
  unfold pair_lt, tuple_lt. simpl. destruct (decide (p1 = p2)) as [->|Hne].
  - rewrite (lt_irrefl (lt:=Py.str_lt)). split; [by right|].
    by intros [?|[_ ?]].
  - split; [by left|]. by intros [?|[? _]].
Qed.

End orders.

Section sorting.
Context {A : Type} (lt : A -> A -> bool) `{!StrictTotal lt}.
Implicit Types (x y : A) (l : list A).

#[local] Instance not_after_trans : Transitive (not_after lt).
Proof.
  unfold not_after. intros x y z Hyx Hzy.
  destruct (lt z x) eqn:Hzx; [|done].
  destruct (lt x y) eqn:Hxy.
  - by rewrite (lt_trans z x y) in Hzy.
  - rewrite (lt_total (lt:=lt) x y Hxy Hyx) in Hzx. congruence.
Qed.

Lemma insert_by_perm x l : insert_by lt x l ≡ₚ x :: l.
Proof.
  induction l as [|y l IH]; simpl; [done|].
  destruct (lt y x); [|done]. by rewrite IH, Permutation_swap.
Qed.

Lemma sorted_perm l : sorted lt l ≡ₚ l.
Proof.
  induction l as [|x l IH]; simpl; [done|].
  by rewrite insert_by_perm, IH.
Qed.

Lemma insert_by_sorted x l :
  StronglySorted (not_after lt) l -> StronglySorted (not_after lt) (insert_by lt x l).
Proof.
  induction 1 as [|y l Hl IH Hy]; simpl.
  - by repeat constructor.
  - destruct (lt y x) eqn:Hyx.
    + constructor; [done|]. rewrite insert_by_perm.
      constructor; [|done]. by apply (lt_asym lt).
    + constructor; [by constructor|].
      constructor; [done|].
      eapply Forall_impl; [exact Hy|]. intros z Hz. by etrans.
Qed.

Lemma sorted_sorted l : StronglySorted (not_after lt) (sorted lt l).
Proof.
  induction l as [|x l IH]; simpl; [constructor|].
  by apply insert_by_sorted.
Qed.

End sorting.

Section rows.
Context `{Countable K} (key_lt : K -> K -> bool) `{!StrictTotal key_lt}.
Implicit Types (counts : gmap K Z) (rows : list (K * Z)).

(** Among items of distinct keys, sorted items have ascending keys. *)
Lemma sorted_keys_ascending rows :
  NoDup rows.*1 ->
  StronglySorted (not_after (tuple_lt key_lt Py.int_lt)) rows ->
  StronglySorted (fun x y => key_lt x.1 y.1 = true) rows.
Proof.
  intros Hnd Hs. induction Hs as [|x rows Hs IH Hx]; [constructor|].
  rewrite fmap_cons in Hnd. apply NoDup_cons in Hnd as [Hx1 Hnd].
  constructor; [by apply IH|].
  apply Forall_forall. intros y Hy.
  rewrite Forall_forall in Hx. specialize (Hx y Hy).
  assert (y.1 ≠ x.1) as Hne.
  { intros He. apply Hx1. rewrite <-He. by apply list_elem_of_fmap_2. }
  unfold not_after, tuple_lt in Hx. rewrite decide_False in Hx by done.
  destruct (lt_connected key_lt y.1 x.1 Hne); [congruence|done].
Qed.

#[local] Instance keys_ascending_antisymm :
  AntiSymm (=) (fun x y : K * Z => key_lt x.1 y.1 = true).
Proof.
  intros x y Hxy Hyx. by rewrite (lt_asym key_lt _ _ Hxy) in Hyx.
Qed.

(** Sorting does away with the order in which the items come: two
    enumerations of the same entries, with a key each, sort to one list. *)
Lemma sorted_enumeration rows1 rows2 :
  NoDup rows2.*1 -> rows1 ≡ₚ rows2 ->
  sorted (tuple_lt key_lt Py.int_lt) rows1
  = sorted (tuple_lt key_lt Py.int_lt) rows2.
Proof.
  intros Hnd Hperm.
  apply (StronglySorted_unique (fun x y : K * Z => key_lt x.1 y.1 = true)).
  - apply sorted_keys_ascending; [|apply sorted_sorted; apply _].
    by rewrite sorted_perm, Hperm by apply _.
  - apply sorted_keys_ascending; [|apply sorted_sorted; apply _].
    by rewrite sorted_perm by apply _.
  - by rewrite !sorted_perm by apply _.
Qed.

(** The rows written for a table: one per entry, keys ascending. *)
Lemma sorted_items counts :
  let rows := sorted (tuple_lt key_lt Py.int_lt) (map_to_list counts) in
  (forall key n, (key, n) ∈ rows <-> counts !! key = Some n) /\
  StronglySorted (fun x y => key_lt x.1 y.1 = true) rows.
Proof.
  intros rows. subst rows.
  pose proof (sorted_perm (tuple_lt key_lt Py.int_lt) (map_to_list counts))
    as Hperm.
  split.
  - intros key n. by rewrite Hperm, elem_of_map_to_list.
  - apply sorted_keys_ascending; [|apply sorted_sorted; apply _].
    rewrite Hperm. apply NoDup_fst_map_to_list.
Qed.

End rows.

Section report.

Lemma append_assoc (s1 s2 s3 : string) :
  (s1 +:+ s2) +:+ s3 = s1 +:+ s2 +:+ s3.
Proof.
  induction s1 as [|c s1 IH]; [done|].
  change (String c ((s1 +:+ s2) +:+ s3) = String c (s1 +:+ s2 +:+ s3)).
  by rewrite IH.
Qed.

Lemma StronglySorted_weaken {A} (R1 R2 : A -> A -> Prop) (l : list A) :
  (forall x y, R1 x y -> R2 x y) ->
  StronglySorted R1 l -> StronglySorted R2 l.
Proof.
  intros HR. induction 1 as [|x l Hl IH Hx]; constructor; [done|].
  eapply Forall_impl; [exact Hx|]. intros y. apply HR.
Qed.

(** A count is written as its decimal numeral: read back, it is the count. *)
Lemma str_of_int_decimal (n : Z) :
  Z.of_int <$> NilZero.int_of_string (Py.str_of_int n) = Some n.
Proof.
  unfold Py.str_of_int. rewrite NilZero.isi.
  - simpl. by rewrite DecimalZ.of_to.
  - intros Hn. pose proof (DecimalZ.of_to n) as Hz. rewrite Hn in Hz.
    simpl in Hz. by subst n.
  - intros Hn. pose proof (DecimalZ.of_to n) as Hz. rewrite Hn in Hz.
    simpl in Hz. by subst n.
Qed.

Lemma written_app (ws1 ws2 : list string) :
  written (ws1 ++ ws2) = written ws1 +:+ written ws2.
Proof.
  unfold written. induction ws1 as [|w ws1 IH]; simpl; [done|].
  by rewrite IH, append_assoc.
Qed.

End report.

(** C7: the file [save_results] writes is, byte for byte: the line
    ["Tag Counts:"], the line ["Tag,Count"], one line ["<tag>,<count>"] per
    entry of the tag table with the tags in strictly ascending string order,
    an empty line, the line ["Port/Protocol Combination Counts:"], the line
    ["Port,Protocol,Count"], and one line ["<port>,<protocol>,<count>"] per
    entry of the port/protocol table, in strictly ascending order of the
    port string and, for one port, of the protocol string (strings are
    compared by code points, not as numbers); each count is written as its
    decimal numeral and each line ends with a line feed.  The file does not
    depend on the order in which the two dicts yield their entries: any
    enumeration of the same entries gives these same bytes. *)
Theorem save_results_layout (tag_counts : gmap string Z)
    (port_protocol_counts : gmap (string * string) Z)
    (tag_items : list (string * Z))
    (port_items : list (string * string * Z)) :
  tag_items ≡ₚ map_to_list tag_counts ->
  port_items ≡ₚ map_to_list port_protocol_counts ->
  let nl := String "010"%char "" in
  exists (tag_rows : list (string * Z)) (port_rows : list (string * string * Z)),
    written (save_results_items tag_items port_items) =
      "Tag Counts:" +:+ nl +:+
      "Tag,Count" +:+ nl +:+
      written
        ((fun row => row.1 +:+ "," +:+ Py.str_of_int row.2 +:+ nl)
           <$> tag_rows) +:+
      nl +:+
      "Port/Protocol Combination Counts:" +:+ nl +:+
      "Port,Protocol,Count" +:+ nl +:+
      written
        ((fun row =>
            row.1.1 +:+ "," +:+ row.1.2 +:+ "," +:+ Py.str_of_int row.2
            +:+ nl) <$> port_rows) /\
    (forall tag n, (tag, n) ∈ tag_rows <-> tag_counts !! tag = Some n) /\
    StronglySorted (fun x y => String.ltb x.1 y.1 = true) tag_rows /\
    (forall key n,
       (key, n) ∈ port_rows <-> port_protocol_counts !! key = Some n) /\
    StronglySorted
      (fun x y =>
         String.ltb x.1.1 y.1.1 = true \/
         (x.1.1 = y.1.1 /\ String.ltb x.1.2 y.1.2 = true)) port_rows /\
    (forall n : Z,
       Z.of_int <$> NilZero.int_of_string (Py.str_of_int n) = Some n) /\
    save_results tag_counts port_protocol_counts
    = written (save_results_items tag_items port_items).
Proof.
  intros Ht Hp nl.
  exists (sorted tag_item_lt (map_to_list tag_counts)),
         (sorted port_item_lt (map_to_list port_protocol_counts)).
  destruct (sorted_items Py.str_lt tag_counts) as [Ht1 Ht2].
  destruct (sorted_items pair_lt port_protocol_counts) as [Hp1 Hp2].
  assert (written (save_results_items tag_items port_items)
          = save_results tag_counts port_protocol_counts) as Hsame.
  { unfold save_results, save_results_writes, save_results_items.
    unfold tag_item_lt, port_item_lt.
    rewrite (sorted_enumeration Py.str_lt _ _
               (NoDup_fst_map_to_list tag_counts) Ht).
    by rewrite (sorted_enumeration pair_lt _ _
                  (NoDup_fst_map_to_list port_protocol_counts) Hp). }
  split.
  { rewrite Hsame.
    unfold save_results, save_results_writes, save_results_items.
    rewrite !written_app. unfold written at 1 3. simpl.
    by rewrite !append_assoc. }
  split; [exact Ht1|]. split; [exact Ht2|].
  split; [exact Hp1|]. split.
  { eapply StronglySorted_weaken; [|exact Hp2].
    intros [[p1 q1] n1] [[p2 q2] n2]. apply pair_lt_lexicographic. }
  split; [apply str_of_int_decimal|by symmetry].
Qed.

Lemma save_results_layout_witness :
  save_results (<["sv_p1" := 2]> {[ "Untagged" := 1 ]})
    (<[("25", "tcp") := 2]> {[ ("9999", "tcp") := 1 ]})
  = written
      (save_results_items [("sv_p1", 2); ("Untagged", 1)]
         [("9999", "tcp", 1); ("25", "tcp", 2)])
  /\
  save_results (<["sv_p1" := 2]> {[ "Untagged" := 1 ]})
    (<[("25", "tcp") := 2]> {[ ("9999", "tcp") := 1 ]})
  = written
      (save_results_items [("Untagged", 1); ("sv_p1", 2)]
         [("25", "tcp", 2); ("9999", "tcp", 1)]).
Proof.
  split.
  - destruct (save_results_layout
                (<["sv_p1" := 2]> {[ "Untagged" := 1 ]})
                (<[("25", "tcp") := 2]> {[ ("9999", "tcp") := 1 ]})
                [("sv_p1", 2); ("Untagged", 1)]
                [("9999", "tcp", 1); ("25", "tcp", 2)])
      as (_ & _ & _ & _ & _ & _ & _ & _ & Heq).
    + vm_compute. first [reflexivity | apply perm_swap].
    + vm_compute. first [reflexivity | apply perm_swap].
    + exact Heq.
  - destruct (save_results_layout
                (<["sv_p1" := 2]> {[ "Untagged" := 1 ]})
                (<[("25", "tcp") := 2]> {[ ("9999", "tcp") := 1 ]})
                [("Untagged", 1); ("sv_p1", 2)]
                [("25", "tcp", 2); ("9999", "tcp", 1)])
      as (_ & _ & _ & _ & _ & _ & _ & _ & Heq).
    + vm_compute. first [reflexivity | apply perm_swap].
    + vm_compute. first [reflexivity | apply perm_swap].
    + exact Heq.
Defined.

(** Ports are compared as strings: ["10"] comes before ["9"]. *)
Example save_results_ports_as_strings :
  save_results {[ "Untagged" := 2 ]}
    (<[("9", "tcp") := 1]> {[ ("10", "tcp") := 1 ]})
  = "Tag Counts:" +:+ Py.nl +:+
    "Tag,Count" +:+ Py.nl +:+
    "Untagged,2" +:+ Py.nl +:+
    Py.nl +:+
    "Port/Protocol Combination Counts:" +:+ Py.nl +:+
    "Port,Protocol,Count" +:+ Py.nl +:+
    "10,tcp,1" +:+ Py.nl +:+
    "9,tcp,1" +:+ Py.nl.
Proof. by vm_compute. Qed.

(** The end-to-end scenario: three rules, two records for port 25 and one
    for port 9999, all TCP. *)
Example end_to_end :
  main ["25,tcp,sv_P1" +:+ Py.nl; "68,udp,sv_P2" +:+ Py.nl; "23,tcp,sv_P1"]
       [sample_record "25" "6"; sample_record "25" "6";
        sample_record "9999" "6"] 1
  = Ok ("Tag Counts:" +:+ Py.nl +:+
        "Tag,Count" +:+ Py.nl +:+
        "Untagged,1" +:+ Py.nl +:+
        "sv_p1,2" +:+ Py.nl +:+
        Py.nl +:+
        "Port/Protocol Combination Counts:" +:+ Py.nl +:+
        "Port,Protocol,Count" +:+ Py.nl +:+
        "25,tcp,2" +:+ Py.nl +:+
        "9999,tcp,1" +:+ Py.nl).
Proof. by vm_compute. Qed.

(** * Further properties of the pass *)

Section pass.
Implicit Types (lookup_dict : lookup_table) (verbosity : Z).
Implicit Types (st : flow_state) (line : string) (log_file : list string).

(** The loop body, by cases on the line. *)
Lemma process_line_cases lookup_dict verbosity st line :
  process_line lookup_dict verbosity st line =
  if decide (classified line)
  then {| tag_counts :=
            count_tags (resolve_tags lookup_dict (record_key line))
              (tag_counts st);
          port_protocol_counts :=
            incr (record_key line) (port_protocol_counts st);
          emitted :=
            if decide (2 <= verbosity)
            then emitted st ++ [record_log lookup_dict line]
            else emitted st |}
  else st.
Proof.
  destruct (decide (classified line)) as [Hc|Hc].
  - by apply process_line_classified.
  - apply process_line_skip_eq. right. unfold classified in Hc. lia.
Qed.

Lemma foldl_port_count lookup_dict verbosity st log_file key :
  count_of
    (port_protocol_counts (foldl (process_line lookup_dict verbosity) st log_file))
    key
  = count_of (port_protocol_counts st) key
    + Z.of_nat (length (filter (fun line => record_key line = key)
                          (records log_file))).
Proof.
  revert st. induction log_file as [|line log_file IH]; intros st; simpl.
  { unfold records. simpl. lia. }
  rewrite IH, process_line_cases. unfold records. rewrite filter_cons.
  destruct (decide (classified line)); [|done].
  simpl. rewrite count_of_incr, filter_cons.
  destruct (decide (key = record_key line)) as [->|Hne].
  - rewrite decide_True by done. simpl. lia.
  - rewrite decide_False by done. lia.
Qed.

Lemma foldl_tag_count lookup_dict verbosity st log_file tag :
  count_of
    (tag_counts (foldl (process_line lookup_dict verbosity) st log_file)) tag
  = count_of (tag_counts st) tag
    + Z.of_nat
        (sum_list_with
           (fun line =>
              occurrences tag (resolve_tags lookup_dict (record_key line)))
           (records log_file)).
Proof.
  revert st. induction log_file as [|line log_file IH]; intros st; simpl.
  { unfold records. simpl. lia. }
  rewrite IH, process_line_cases. unfold records. rewrite filter_cons.
  destruct (decide (classified line)); [|done].
  simpl. rewrite count_of_count_tags. lia.
Qed.

Lemma foldl_totals lookup_dict verbosity st log_file :
  let st' := foldl (process_line lookup_dict verbosity) st log_file in
  total_count (port_protocol_counts st')
  = total_count (port_protocol_counts st)
    + Z.of_nat (length (records log_file)) /\
  total_count (tag_counts st')
  = total_count (tag_counts st)
    + Z.of_nat
        (sum_list_with
           (fun line => length (resolve_tags lookup_dict (record_key line)))
           (records log_file)).
Proof.
  revert st. induction log_file as [|line log_file IH]; intros st; simpl.
  { unfold records. simpl. lia. }
  destruct (IH (process_line lookup_dict verbosity st line)) as [-> ->].
  rewrite process_line_cases. unfold records. rewrite filter_cons.
  destruct (decide (classified line)); [|done].
  simpl. rewrite total_count_incr, total_count_tags. lia.
Qed.

Lemma foldl_emitted lookup_dict verbosity st log_file :
  emitted (foldl (process_line lookup_dict verbosity) st log_file)
  = emitted st
    ++ (if decide (2 <= verbosity)
        then record_log lookup_dict <$> records log_file
        else []).
Proof.
  revert st. induction log_file as [|line log_file IH]; intros st; simpl.
  { unfold records. simpl. destruct (decide _); by rewrite app_nil_r. }
  rewrite IH, process_line_cases. unfold records. rewrite filter_cons.
  destruct (decide (classified line)); [|done].
  simpl. destruct (decide (2 <= verbosity)); [|done].
  by rewrite <-app_assoc.
Qed.

Lemma count_of_empty `{Countable K} (key : K) : count_of (∅ : gmap K Z) key = 0.
Proof. unfold count_of. by rewrite lookup_empty. Qed.

Lemma total_count_empty `{Countable K} : total_count (∅ : gmap K Z) = 0.
Proof. unfold total_count. by rewrite map_fold_empty. Qed.

(** In a table of counts that are all 1 or more, a key is present exactly
    when its count is not 0, and the counts determine the table. *)
Lemma positive_is_Some `{Countable K} (counts : gmap K Z) key :
  map_Forall (fun _ n => 1 <= n) counts ->
  is_Some (counts !! key) <-> 0 < count_of counts key.
Proof.
  intros Hpos. unfold count_of.
  destruct (counts !! key) as [n|] eqn:Hk; simpl.
  - specialize (Hpos key n Hk). simpl in Hpos. split; [lia|eauto].
  - split; [by intros [? ?]|lia].
Qed.

Lemma positive_maps_eq `{Countable K} (m1 m2 : gmap K Z) :
  map_Forall (fun _ n => 1 <= n) m1 ->
  map_Forall (fun _ n => 1 <= n) m2 ->
  (forall key, count_of m1 key = count_of m2 key) ->
  m1 = m2.
Proof.
  intros H1 H2 Hc. apply map_eq. intros key. specialize (Hc key).
  unfold count_of in Hc.
  destruct (m1 !! key) as [n1|] eqn:Hk1, (m2 !! key) as [n2|] eqn:Hk2;
    simpl in Hc; [by subst| | |done].
  - specialize (H1 key n1 Hk1). simpl in H1. lia.
  - specialize (H2 key n2 Hk2). simpl in H2. lia.
Qed.

Lemma run_flow_logs_positive log_file lookup_dict verbosity :
  let st := run_flow_logs log_file lookup_dict verbosity in
  map_Forall (fun _ n => 1 <= n) (tag_counts st) /\
  map_Forall (fun _ n => 1 <= n) (port_protocol_counts st).
Proof.
  apply foldl_process_line_positive; apply map_Forall_empty.
Qed.

Lemma length_filter_pos {A} (P : A -> Prop) `{forall x, Decision (P x)}
    (l : list A) :
  (0 < length (filter P l))%nat <-> exists x, x ∈ l /\ P x.
Proof.
  split.
  - destruct (filter P l) as [|x l'] eqn:Hf; simpl; [lia|]. intros _.
    assert (x ∈ filter P l) as Hx by (rewrite Hf; left).
    apply list_elem_of_filter in Hx as [? ?]. eauto.
  - intros (x & Hx & HP).
    assert (x ∈ filter P l) as Hf by (by apply list_elem_of_filter).
    destruct (filter P l); [by apply elem_of_nil in Hf|simpl; lia].
Qed.

Lemma sum_list_with_pos {A} (f : A -> nat) (l : list A) :
  (0 < sum_list_with f l)%nat <-> exists x, x ∈ l /\ (0 < f x)%nat.
Proof.
  induction l as [|y l IH]; simpl.
  - split; [lia|]. intros (x & Hx & _). by apply elem_of_nil in Hx.
  - split.
    + intros Hs. destruct (decide (0 < f y)%nat).
      * exists y. split; [left|done].
      * destruct (proj1 IH) as (x & Hx & Hfx); [lia|].
        exists x. split; [by right|done].
    + intros (x & [->|Hx]%elem_of_cons & Hfx); [lia|].
      assert (0 < sum_list_with f l)%nat by (apply IH; eauto). lia.
Qed.

Lemma occurrences_pos tag (tags : list string) :
  (0 < occurrences tag tags)%nat <-> tag ∈ tags.
Proof.
  unfold occurrences. rewrite length_filter_pos. split.
  - by intros (t & Ht & ->).
  - intros Ht. by exists tag.
Qed.

Lemma elem_of_records log_file line :
  line ∈ records log_file <-> line ∈ log_file /\ classified line.
Proof. unfold records. rewrite list_elem_of_filter. tauto. Qed.

Lemma run_port_keys log_file lookup_dict verbosity key :
  is_Some
    (port_protocol_counts (run_flow_logs log_file lookup_dict verbosity) !! key)
  <-> exists line,
        line ∈ log_file /\ classified line /\ record_key line = key.
Proof.
  destruct (run_flow_logs_positive log_file lookup_dict verbosity)
    as [_ Hport].
  unfold run_flow_logs in *. simpl in *.
  rewrite (positive_is_Some _ _ Hport), foldl_port_count.
  simpl. rewrite count_of_empty.
  transitivity (0 < length (filter (fun line => record_key line = key)
                              (records log_file)))%nat; [lia|].
  rewrite length_filter_pos. setoid_rewrite elem_of_records.
  split; intros (line & ? & ?); exists line; tauto.
Qed.

Lemma run_tag_keys log_file lookup_dict verbosity tag :
  is_Some (tag_counts (run_flow_logs log_file lookup_dict verbosity) !! tag)
  <-> exists line,
        line ∈ log_file /\ classified line /\
        tag ∈ resolve_tags lookup_dict (record_key line).
Proof.
  destruct (run_flow_logs_positive log_file lookup_dict verbosity)
    as [Htag _].
  unfold run_flow_logs in *. simpl in *.
  rewrite (positive_is_Some _ _ Htag), foldl_tag_count.
  simpl. rewrite count_of_empty.
  transitivity
    (0 < sum_list_with
           (fun line =>
              occurrences tag (resolve_tags lookup_dict (record_key line)))
           (records log_file))%nat; [lia|].
  rewrite sum_list_with_pos. setoid_rewrite elem_of_records.
  setoid_rewrite occurrences_pos.
  split; intros (line & ? & ?); exists line; tauto.
Qed.

End pass.

(** X4: the count the Port/Protocol table holds for a key (0 when the key is
    absent) is the number of lines of the log file that have at least 14
    fields and that key. *)
Theorem parse_flow_logs_port_count (log_file : list string)
    (lookup_dict : lookup_table) (verbosity : Z) (key : lookup_key) :
  count_of (parse_flow_logs log_file lookup_dict verbosity).2 key
  = Z.of_nat (length (filter (fun line => record_key line = key)
                        (records log_file))).
Proof.
  unfold parse_flow_logs, run_flow_logs. simpl.
  rewrite foldl_port_count. simpl. by rewrite count_of_empty.
Qed.

(** X5: the count the Tag table holds for a tag (0 when the tag is absent)
    is the sum, over the lines of at least 14 fields, of the number of times
    the tag stands in the tag list the line resolves to. *)
Theorem parse_flow_logs_tag_count (log_file : list string)
    (lookup_dict : lookup_table) (verbosity : Z) (tag : string) :
  count_of (parse_flow_logs log_file lookup_dict verbosity).1 tag
  = Z.of_nat
      (sum_list_with
         (fun line =>
            occurrences tag (resolve_tags lookup_dict (record_key line)))
         (records log_file)).
Proof.
  unfold parse_flow_logs, run_flow_logs. simpl.
  rewrite foldl_tag_count. simpl. by rewrite count_of_empty.
Qed.

(** X6: the counts of the Port/Protocol table add up to the number of lines
    of at least 14 fields, and the counts of the Tag table to the sum of the
    lengths of the tag lists these lines resolve to. *)
Theorem parse_flow_logs_totals (log_file : list string)
    (lookup_dict : lookup_table) (verbosity : Z) :
  let result := parse_flow_logs log_file lookup_dict verbosity in
  total_count result.2 = Z.of_nat (length (records log_file)) /\
  total_count result.1
  = Z.of_nat
      (sum_list_with
         (fun line => length (resolve_tags lookup_dict (record_key line)))
         (records log_file)).
Proof.
  unfold parse_flow_logs, run_flow_logs. simpl.
  destruct (foldl_totals lookup_dict verbosity initial_state log_file)
    as [-> ->].
  simpl. by rewrite !total_count_empty.
Qed.

(** X7: a key is in the Port/Protocol table exactly when some line of at
    least 14 fields has it, and a tag is in the Tag table exactly when it
    stands in the tag list of some such line. *)
Theorem parse_flow_logs_keys (log_file : list string)
    (lookup_dict : lookup_table) (verbosity : Z) :
  let result := parse_flow_logs log_file lookup_dict verbosity in
  (forall key,
     is_Some (result.2 !! key) <->
     exists line,
       line ∈ log_file /\ classified line /\ record_key line = key) /\
  (forall tag,
     is_Some (result.1 !! tag) <->
     exists line,
       line ∈ log_file /\ classified line /\
       tag ∈ resolve_tags lookup_dict (record_key line)).
Proof.
  simpl. split; [intros key; apply run_port_keys|intros tag; apply run_tag_keys].
Qed.

(** X8: the two tables do not depend on the order of the lines of the log
    file. *)
Theorem parse_flow_logs_permutation (log_file1 log_file2 : list string)
    (lookup_dict : lookup_table) (verbosity : Z) :
  log_file1 ≡ₚ log_file2 ->
  parse_flow_logs log_file1 lookup_dict verbosity
  = parse_flow_logs log_file2 lookup_dict verbosity.
Proof.
  intros Hperm.
  destruct (run_flow_logs_positive log_file1 lookup_dict verbosity)
    as [Htag1 Hport1].
  destruct (run_flow_logs_positive log_file2 lookup_dict verbosity)
    as [Htag2 Hport2].
  unfold parse_flow_logs, run_flow_logs in *. simpl in *. f_equal.
  - apply positive_maps_eq; [done..|]. intros tag.
    rewrite !foldl_tag_count. unfold records. by rewrite Hperm.
  - apply positive_maps_eq; [done..|]. intros key.
    rewrite !foldl_port_count. unfold records. by rewrite Hperm.
Qed.

Lemma parse_flow_logs_permutation_witness :
  parse_flow_logs [sample_record "25" "6"; sample_record "9999" "17"]
    sample_lookup_dict 1
  = parse_flow_logs [sample_record "9999" "17"; sample_record "25" "6"]
    sample_lookup_dict 1.
Proof.
  apply (parse_flow_logs_permutation
           [sample_record "25" "6"; sample_record "9999" "17"]
           [sample_record "9999" "17"; sample_record "25" "6"]).
  apply perm_swap.
Defined.

(** X9: the counts of a log file made of two parts are the sums of the
    counts of the parts. *)
Theorem parse_flow_logs_app (log_file1 log_file2 : list string)
    (lookup_dict : lookup_table) (verbosity : Z) :
  let whole := parse_flow_logs (log_file1 ++ log_file2) lookup_dict verbosity in
  let part1 := parse_flow_logs log_file1 lookup_dict verbosity in
  let part2 := parse_flow_logs log_file2 lookup_dict verbosity in
  (forall tag,
     count_of whole.1 tag = count_of part1.1 tag + count_of part2.1 tag) /\
  (forall key,
     count_of whole.2 key = count_of part1.2 key + count_of part2.2 key).
Proof.
  unfold parse_flow_logs, run_flow_logs. simpl. split.
  - intros tag. rewrite !foldl_tag_count. unfold records.
    rewrite filter_app, sum_list_with_app. simpl. rewrite count_of_empty. lia.
  - intros key. rewrite !foldl_port_count. unfold records.
    rewrite !filter_app, length_app. simpl. rewrite count_of_empty. lia.
Qed.

(** X14: at verbosity 2 or more the pass emits one diagnostic for each line
    of at least 14 fields, in file order, carrying the port, the protocol
    name and the resolved tag list; below 2 it emits none. *)
Theorem run_flow_logs_diagnostics (log_file : list string)
    (lookup_dict : lookup_table) (verbosity : Z) :
  emitted (run_flow_logs log_file lookup_dict verbosity)
  = if decide (2 <= verbosity)
    then record_log lookup_dict <$> records log_file
    else [].
Proof. unfold run_flow_logs. by rewrite foldl_emitted. Qed.

(** * Further properties of the loader *)

Section normal_forms.
Implicit Types (s : string) (c : ascii).

Lemma isspace_lower_char c : Py.isspace (Py.lower_char c) = Py.isspace c.
Proof. by destruct c as [[] [] [] [] [] [] [] []]. Qed.

Lemma lower_empty s : Py.lower s = "" <-> s = "".
Proof. by destruct s. Qed.

Lemma lstrip_lower s : Py.lstrip (Py.lower s) = Py.lower (Py.lstrip s).
Proof.
  induction s as [|c s IH]; simpl; [done|].
  rewrite isspace_lower_char. by destruct (Py.isspace c).
Qed.

Lemma rstrip_lower s : Py.rstrip (Py.lower s) = Py.lower (Py.rstrip s).
Proof.
  induction s as [|c s IH]; [done|].
  change (Py.lower (String c s))
    with (String (Py.lower_char c) (Py.lower s)).
  rewrite !rstrip_cons, IH, isspace_lower_char.
  rewrite (bool_decide_ext _ _ (lower_empty (Py.rstrip s))).
  by destruct (bool_decide (Py.rstrip s = "") && Py.isspace c).
Qed.

Lemma strip_lower s : Py.strip (Py.lower s) = Py.lower (Py.strip s).
Proof. unfold Py.strip. by rewrite lstrip_lower, rstrip_lower. Qed.

Lemma lstrip_rstrip s : Py.lstrip (Py.rstrip s) = Py.rstrip (Py.lstrip s).
Proof.
  induction s as [|c s IH]; [done|].
  rewrite rstrip_cons. simpl Py.lstrip at 2.
  destruct (Py.isspace c) eqn:Hc.
  - rewrite andb_true_r, <-IH.
    destruct (bool_decide (Py.rstrip s = "")) eqn:Hr.
    + apply bool_decide_eq_true in Hr. by rewrite Hr.
    + simpl. by rewrite Hc.
  - rewrite andb_false_r, rstrip_cons, Hc, andb_false_r. simpl.
    by rewrite Hc.
Qed.

Lemma strip_idemp s : Py.strip (Py.strip s) = Py.strip s.
Proof.
  unfold Py.strip.
  by rewrite lstrip_rstrip, lstrip_idemp, rstrip_idemp.
Qed.

(** What the loader stores, [item.strip().lower()], is in normal form. *)
Lemma lower_strip_normalized s : normalized (Py.lower (Py.strip s)).
Proof.
  split; [|apply lower_idemp]. by rewrite strip_lower, strip_idemp.
Qed.

(** A lowercased string has no capital U, so it is not the fallback tag. *)
Lemma lower_not_untagged s : Py.lower s ≠ "Untagged".
Proof.
  destruct s as [|c s]; [done|]. simpl. intros [= Hc _]. revert Hc.
  by destruct c as [[] [] [] [] [] [] [] []].
Qed.

End normal_forms.

Section loaded.
Implicit Types (lookup_dict : lookup_table) (file : list string).

Lemma not_loadable line :
  ¬ loadable line <->
  Py.count "," (Py.strip line) ≠ 0%nat /\ Py.count "," (Py.strip line) ≠ 2%nat.
Proof. unfold loadable. tauto. Qed.

Lemma load_lines_ok_loadable lookup_dict file lookup_dict' :
  load_lines lookup_dict file = Ok lookup_dict' -> Forall loadable file.
Proof.
  intros Hok. destruct (decide (Forall loadable file)) as [|Hn]; [done|].
  by rewrite (load_lines_raise _ _ Hn) in Hok.
Qed.

Lemma rule_of_line_normalized line key tag :
  rule_of_line line = Some (key, tag) ->
  normalized key.1 /\ normalized key.2 /\ normalized tag /\ tag ≠ "Untagged".
Proof.
  unfold rule_of_line.
  destruct (Py.split "," (Py.strip line)) as [|a [|b [|t [|? ?]]]];
    intros; simplify_eq/=.
  auto using lower_strip_normalized, lower_not_untagged.
Qed.

Lemma elem_of_tags_of_key key file tag :
  tag ∈ tags_of_key key file <->
  exists line, line ∈ file /\ rule_of_line line = Some (key, tag).
Proof.
  unfold tags_of_key. rewrite list_elem_of_omap.
  split; intros (line & Hin & Hr); exists line; (split; [done|]).
  - destruct (rule_of_line line) as [[key' tag']|]; simplify_eq/=.
    case_decide; by simplify_eq.
  - rewrite Hr. simpl. by rewrite decide_True.
Qed.

(** The entries of a loaded table are those of the well-formed lines. *)
Lemma load_lookup_table_entries file lookup_dict key tags :
  load_lookup_table file = Ok lookup_dict ->
  lookup_dict !! key = Some tags ->
  tags = tags_of_key key file /\ tags ≠ [].
Proof.
  intros Hok Hk. pose proof (load_lines_ok_loadable _ _ _ Hok) as Hf.
  destruct (load_lines_spec ∅ file Hf) as (d & Hd & Hkeys).
  unfold load_lookup_table in Hok. rewrite Hd in Hok. simplify_eq.
  destruct (Hkeys key) as [H1 H2]. rewrite Hk, lookup_empty in H1.
  simpl in H1. split; [done|]. rewrite H1.
  rewrite Hk, lookup_empty in H2.
  destruct (proj1 H2 (mk_is_Some _ _ eq_refl)) as [[? [=]]|?]; done.
Qed.

End loaded.

(** X1: the loader raises [ValueError] exactly when some line of the file,
    once stripped, has a number of commas other than 0 and 2 (one comma, or
    three and more); in every other case it returns a table. *)
Theorem load_lookup_table_raises_iff (lookup_file : list string) :
  (load_lookup_table lookup_file = Raise ValueError <->
   exists line,
     line ∈ lookup_file /\
     Py.count "," (Py.strip line) ≠ 0%nat /\
     Py.count "," (Py.strip line) ≠ 2%nat) /\
  ((exists lookup_dict, load_lookup_table lookup_file = Ok lookup_dict) <->
   Forall loadable lookup_file).
Proof.
  assert (load_lookup_table lookup_file = Raise ValueError <->
          ¬ Forall loadable lookup_file) as Hraise.
  { split; [|apply load_lines_raise]. intros Hr Hf.
    destruct (load_lines_spec ∅ _ Hf) as (d & Hd & _).
    unfold load_lookup_table in Hr. by rewrite Hd in Hr. }
  split.
  - rewrite Hraise. split.
    + intros Hn%not_Forall_Exists; [|apply _].
      apply Exists_exists in Hn as (line & Hin & Hl).
      exists line. split; [done|]. by apply not_loadable.
    + intros (line & Hin & Hl) Hf. rewrite Forall_forall in Hf.
      by apply (proj2 (not_loadable line) Hl), Hf.
  - split.
    + intros [d Hd]. by eapply load_lines_ok_loadable.
    + intros Hf. destruct (load_lines_spec ∅ _ Hf) as (d & Hd & _). eauto.
Qed.

(** X2: in a table the loader returns, every key is made of a port and a
    protocol that stripping and lowercasing leave unchanged, and so is every
    tag. *)
Theorem load_lookup_table_normalized (lookup_file : list string)
    (lookup_dict : lookup_table) (port protocol : string)
    (tags : list string) :
  load_lookup_table lookup_file = Ok lookup_dict ->
  lookup_dict !! (port, protocol) = Some tags ->
  normalized port /\ normalized protocol /\ Forall normalized tags.
Proof.
  intros Hok Hk.
  destruct (load_lookup_table_entries _ _ _ _ Hok Hk) as [-> Hne].
  assert (forall tag, tag ∈ tags_of_key (port, protocol) lookup_file ->
            normalized port /\ normalized protocol /\ normalized tag) as Hall.
  { intros tag (line & _ & Hr)%elem_of_tags_of_key.
    apply rule_of_line_normalized in Hr. simpl in Hr. tauto. }
  destruct (tags_of_key (port, protocol) lookup_file) as [|tag tags] eqn:Ht;
    [done|].
  destruct (Hall tag) as (Hp & Hq & _); [left|].
  split; [done|]. split; [done|].
  apply Forall_forall. intros t Hin. by apply Hall.
Qed.

Lemma load_lookup_table_normalized_witness :
  normalized "443" /\ normalized "tcp" /\ Forall normalized ["first"; "second"].
Proof.
  apply (load_lookup_table_normalized sample_lookup_file sample_loaded).
  - vm_compute. reflexivity.
  - reflexivity.
Defined.

(** X3: in a table the loader returns no tag list is empty and none holds
    the fallback tag ["Untagged"]. *)
Theorem load_lookup_table_tags (lookup_file : list string)
    (lookup_dict : lookup_table) (key : lookup_key) (tags : list string) :
  load_lookup_table lookup_file = Ok lookup_dict ->
  lookup_dict !! key = Some tags ->
  tags ≠ [] /\ "Untagged" ∉ tags.
Proof.
  intros Hok Hk.
  destruct (load_lookup_table_entries _ _ _ _ Hok Hk) as [-> Hne].
  split; [done|]. intros (line & _ & Hr)%elem_of_tags_of_key.
  apply rule_of_line_normalized in Hr. tauto.
Qed.

Lemma load_lookup_table_tags_witness :
  ["first"; "second"] ≠ [] /\ "Untagged" ∉ ["first"; "second"].
Proof.
  apply (load_lookup_table_tags sample_lookup_file sample_loaded
           ("443", "tcp")).
  - vm_compute. reflexivity.
  - reflexivity.
Defined.

(** * Further properties of the pass, the loader and the pipeline together *)

Section fields.
Implicit Types (s cur f : string).

Lemma elem_of_rev_app c s1 s2 :
  c ∈ String.list_ascii_of_string (String.rev_app s1 s2) <->
  c ∈ String.list_ascii_of_string s1 \/ c ∈ String.list_ascii_of_string s2.
Proof.
  revert s2. induction s1 as [|d s1 IH]; intros s2; simpl.
  - rewrite elem_of_nil. tauto.
  - rewrite IH. simpl. rewrite !elem_of_cons. tauto.
Qed.

Lemma rev_app_nonempty s1 s2 : s2 ≠ "" -> String.rev_app s1 s2 ≠ "".
Proof.
  revert s2. induction s1 as [|d s1 IH]; intros s2 Hs2; simpl; [done|].
  by apply IH.
Qed.

Lemma rev_field cur :
  cur ≠ "" -> no_space cur ->
  String.rev cur ≠ "" /\ no_space (String.rev cur).
Proof.
  intros Hne Hcur. unfold String.rev. split.
  - destruct cur as [|d cur]; [done|]. simpl. by apply rev_app_nonempty.
  - intros c [Hc|Hc]%elem_of_rev_app; [by apply Hcur|].
    simpl in Hc. by apply elem_of_nil in Hc.
Qed.

(** The fields [split()] returns are not empty and hold no whitespace. *)
Lemma split_ws_go_fields cur s f :
  no_space cur -> f ∈ Py.split_ws_go cur s -> f ≠ "" /\ no_space f.
Proof.
  revert cur. induction s as [|c s IH]; intros cur Hcur; simpl.
  - destruct cur as [|d cur]; [by intros ?%elem_of_nil|].
    intros ->%list_elem_of_singleton. by apply rev_field.
  - destruct (Py.isspace c) eqn:Hc.
    + assert (no_space "") as Hnil by (by intros ? ?%elem_of_nil).
      destruct cur as [|d cur]; [by apply IH|].
      intros [->|Hf]%elem_of_cons; [by apply rev_field|by apply (IH "")].
    + apply IH. intros e [->|He]%elem_of_cons; [done|by apply Hcur].
Qed.

Lemma split_ws_fields s f : f ∈ Py.split_ws s -> f ≠ "" /\ no_space f.
Proof. apply split_ws_go_fields. by intros ? ?%elem_of_nil. Qed.

Lemma resolve_protocol_range (protocol_num : string) :
  resolve_protocol protocol_num ∈ ["tcp"; "udp"; "icmp"].
Proof. unfold resolve_protocol. repeat case_decide; set_solver. Qed.

Lemma record_key_shape line :
  classified line ->
  (record_key line).1 ≠ "" /\ no_space (record_key line).1 /\
  (record_key line).2 ∈ ["tcp"; "udp"; "icmp"].
Proof.
  intros Hc. unfold record_key, dstport_of, protocol_of. simpl.
  split_and!; [..|apply resolve_protocol_range];
    apply (split_ws_fields line), list_elem_of_lookup_total_2;
    unfold classified in Hc; lia.
Qed.

End fields.

Section composed.
Implicit Types (lookup_dict : lookup_table) (log_file : list string).

Lemma process_line_agree lookup_dict1 lookup_dict2 verbosity st line :
  (forall port protocol,
     protocol ∈ ["tcp"; "udp"; "icmp"] ->
     lookup_dict1 !! (port, protocol) = lookup_dict2 !! (port, protocol)) ->
  process_line lookup_dict1 verbosity st line
  = process_line lookup_dict2 verbosity st line.
Proof.
  intros Hagree. rewrite !process_line_cases.
  destruct (decide (classified line)); [|done].
  assert (resolve_tags lookup_dict1 (record_key line)
          = resolve_tags lookup_dict2 (record_key line)) as Ht.
  { unfold resolve_tags, record_key. rewrite Hagree; [done|].
    apply resolve_protocol_range. }
  unfold record_log. by rewrite Ht.
Qed.

Lemma loaded_untagged_free lookup_file lookup_dict key tags :
  load_lookup_table lookup_file = Ok lookup_dict ->
  lookup_dict !! key = Some tags ->
  "Untagged" ∉ tags.
Proof.
  intros Hok Hk.
  destruct (load_lookup_table_entries _ _ _ _ Hok Hk) as [-> _].
  intros (line & _ & Hr)%elem_of_tags_of_key.
  apply rule_of_line_normalized in Hr. tauto.
Qed.

Lemma sum_list_with_indicator {A} (P : A -> Prop) `{forall x, Decision (P x)}
    (f : A -> nat) (l : list A) :
  (forall x, x ∈ l -> f x = if decide (P x) then 1%nat else 0%nat) ->
  sum_list_with f l = length (filter P l).
Proof.
  induction l as [|x l IH]; intros Hf; simpl; [done|].
  rewrite filter_cons, (Hf x) by left.
  rewrite IH by (intros y Hy; apply Hf; by right).
  by destruct (decide (P x)).
Qed.

Lemma filter_constant_true {A} (P : Prop) `{Decision P} (l : list A) :
  P -> filter (fun _ => P) l = l.
Proof.
  intros HP. induction l as [|x l IH]; [done|].
  by rewrite filter_cons, decide_True, IH.
Qed.

Lemma filter_constant_false {A} (P : Prop) `{Decision P} (l : list A) :
  ¬ P -> filter (fun _ => P) l = [].
Proof.
  intros HP. induction l as [|x l IH]; [done|].
  by rewrite filter_cons, decide_False.
Qed.

Lemma occurrences_untagged (tag : string) :
  occurrences tag ["Untagged"] = if decide (tag = "Untagged") then 1%nat else 0%nat.
Proof.
  unfold occurrences. rewrite filter_cons, filter_nil.
  destruct (decide (tag = "Untagged")) as [->|Hne].
  - by rewrite decide_True.
  - by rewrite decide_False.
Qed.

Lemma occurrences_absent (tag : string) (tags : list string) :
  tag ∉ tags -> occurrences tag tags = 0%nat.
Proof.
  intros Hn. destruct (occurrences tag tags) eqn:Ho; [done|].
  destruct Hn. apply occurrences_pos. lia.
Qed.

Lemma foldl_no_records lookup_dict verbosity st log_file :
  records log_file = [] ->
  foldl (process_line lookup_dict verbosity) st log_file = st.
Proof.
  unfold records. induction log_file as [|line log_file IH]; [done|].
  rewrite filter_cons. simpl. rewrite process_line_cases.
  by destruct (decide (classified line)).
Qed.

End composed.

(** X10: rules whose protocol is none of ["tcp"], ["udp"], ["icmp"] are
    never used: two lookup tables that agree on every key with one of these
    three protocols give the same tables and the same diagnostics. *)
Theorem run_flow_logs_unused_rules (log_file : list string)
    (lookup_dict1 lookup_dict2 : lookup_table) (verbosity : Z) :
  (forall port protocol,
     protocol ∈ ["tcp"; "udp"; "icmp"] ->
     lookup_dict1 !! (port, protocol) = lookup_dict2 !! (port, protocol)) ->
  run_flow_logs log_file lookup_dict1 verbosity
  = run_flow_logs log_file lookup_dict2 verbosity.
Proof.
  intros Hagree. unfold run_flow_logs. generalize initial_state.
  induction log_file as [|line log_file IH]; intros st; simpl; [done|].
  by rewrite IH, (process_line_agree _ _ _ _ _ Hagree).
Qed.

Lemma run_flow_logs_unused_rules_witness :
  run_flow_logs sample_log_file
    (<[("25", "sctp") := ["transport"]]> sample_lookup_dict) 2
  = run_flow_logs sample_log_file sample_lookup_dict 2.
Proof.
  apply (run_flow_logs_unused_rules sample_log_file
           (<[("25", "sctp") := ["transport"]]> sample_lookup_dict)
           sample_lookup_dict 2).
  intros port protocol Hin. apply lookup_insert_ne. intros [= <- <-].
  repeat (apply elem_of_cons in Hin as [Hin|Hin]; [discriminate Hin|]).
  by apply elem_of_nil in Hin.
Defined.

(** X11: every key of the Port/Protocol table is made of a port that is not
    empty and holds no whitespace, and of one of the protocol names
    ["tcp"], ["udp"], ["icmp"]. *)
Theorem parse_flow_logs_key_shape (log_file : list string)
    (lookup_dict : lookup_table) (verbosity : Z) (port protocol : string) :
  is_Some
    ((parse_flow_logs log_file lookup_dict verbosity).2 !! (port, protocol)) ->
  port ≠ "" /\ no_space port /\ protocol ∈ ["tcp"; "udp"; "icmp"].
Proof.
  unfold parse_flow_logs. simpl.
  intros (line & _ & Hc & Hkey)%run_port_keys.
  pose proof (record_key_shape line Hc) as Hshape.
  by rewrite Hkey in Hshape.
Qed.

Lemma parse_flow_logs_key_shape_witness :
  "9999" ≠ "" /\ no_space "9999" /\ "tcp" ∈ ["tcp"; "udp"; "icmp"].
Proof.
  apply (parse_flow_logs_key_shape sample_log_file sample_lookup_dict 1).
  vm_compute. eauto.
Defined.

(** X12: with a lookup table that the loader returned, the count of
    ["Untagged"] is the number of lines of at least 14 fields whose key is
    not in the table: no rule of a lookup file can add to it. *)
Theorem parse_flow_logs_untagged_count (lookup_file log_file : list string)
    (lookup_dict : lookup_table) (verbosity : Z) :
  load_lookup_table lookup_file = Ok lookup_dict ->
  count_of (parse_flow_logs log_file lookup_dict verbosity).1 "Untagged"
  = Z.of_nat
      (length (filter (fun line => lookup_dict !! record_key line = None)
                 (records log_file))).
Proof.
  intros Hok. unfold parse_flow_logs, run_flow_logs. simpl.
  rewrite foldl_tag_count. simpl. rewrite count_of_empty.
  rewrite (sum_list_with_indicator
             (fun line => lookup_dict !! record_key line = None)); [lia|].
  intros line _. unfold resolve_tags.
  destruct (lookup_dict !! record_key line) as [tags|] eqn:Hk; simpl.
  - apply occurrences_absent. by eapply loaded_untagged_free.
  - apply occurrences_untagged.
Qed.

Lemma parse_flow_logs_untagged_count_witness :
  count_of (parse_flow_logs sample_log_file sample_loaded 1).1 "Untagged"
  = Z.of_nat
      (length (filter (fun line => sample_loaded !! record_key line = None)
                 (records sample_log_file))).
Proof.
  apply (parse_flow_logs_untagged_count sample_lookup_file).
  vm_compute. reflexivity.
Defined.

(** X13: when no line of at least 14 fields has its key in the lookup table
    (an empty table, for one), the Tag table holds the single entry
    ["Untagged"] with the number of these lines, and is empty when there is
    no such line. *)
Theorem parse_flow_logs_all_untagged (log_file : list string)
    (lookup_dict : lookup_table) (verbosity : Z) :
  (forall line,
     line ∈ log_file -> classified line ->
     lookup_dict !! record_key line = None) ->
  (parse_flow_logs log_file lookup_dict verbosity).1
  = if decide (records log_file = []) then ∅
    else {[ "Untagged" := Z.of_nat (length (records log_file)) ]}.
Proof.
  intros Hnone.
  destruct (run_flow_logs_positive log_file lookup_dict verbosity)
    as [Htag _].
  unfold parse_flow_logs, run_flow_logs in *. simpl in *.
  destruct (decide (records log_file = [])) as [He|Hne].
  { by rewrite foldl_no_records. }
  apply positive_maps_eq; [done| |].
  { apply map_Forall_singleton. destruct (records log_file); [done|].
    simpl. lia. }
  intros tag. rewrite foldl_tag_count. simpl. rewrite count_of_empty.
  rewrite (sum_list_with_indicator (fun _ => tag = "Untagged")).
  - unfold count_of. destruct (decide (tag = "Untagged")) as [->|Hn].
    + rewrite lookup_singleton_eq, filter_constant_true by done. simpl. lia.
    + rewrite lookup_singleton_ne, filter_constant_false by done. done.
  - intros line [Hin Hc]%elem_of_records. unfold resolve_tags.
    rewrite (Hnone line Hin Hc). simpl. apply occurrences_untagged.
Qed.

Lemma parse_flow_logs_all_untagged_witness :
  (parse_flow_logs sample_log_file ∅ 1).1 = {[ "Untagged" := 3 ]}.
Proof.
  apply (parse_flow_logs_all_untagged sample_log_file ∅ 1).
  intros line _ _. apply lookup_empty.
Defined.

(** X15: [main] ends with [ValueError] exactly when the lookup file has a
    line that the loader neither skips nor accepts, whatever the log file
    holds; in every other case it writes the report of the two tables of the
    pass. *)
Theorem main_raises_iff (lookup_file log_file : list string) (verbosity : Z) :
  (main lookup_file log_file verbosity = Raise ValueError <->
   ¬ Forall loadable lookup_file) /\
  (Forall loadable lookup_file ->
   exists lookup_dict,
     load_lookup_table lookup_file = Ok lookup_dict /\
     main lookup_file log_file verbosity
     = Ok (save_results
             (parse_flow_logs log_file lookup_dict verbosity).1
             (parse_flow_logs log_file lookup_dict verbosity).2)).
Proof.
  assert (Forall loadable lookup_file ->
          exists lookup_dict,
            load_lookup_table lookup_file = Ok lookup_dict /\
            main lookup_file log_file verbosity
            = Ok (save_results
                    (parse_flow_logs log_file lookup_dict verbosity).1
                    (parse_flow_logs log_file lookup_dict verbosity).2))
    as Hok.
  { intros Hf. destruct (load_lines_spec ∅ _ Hf) as (d & Hd & _).
    exists d. split; [done|]. unfold main, load_lookup_table. by rewrite Hd. }
  split; [|done]. split.
  - intros Hr Hf. destruct (Hok Hf) as (d & _ & Hm). by rewrite Hm in Hr.
  - intros Hn. unfold main, load_lookup_table.
    by rewrite (load_lines_raise _ _ Hn).
Qed.

Lemma main_raises_iff_witness :
  exists lookup_dict,
    load_lookup_table sample_lookup_file = Ok lookup_dict /\
    main sample_lookup_file sample_log_file 1
    = Ok (save_results
            (parse_flow_logs sample_log_file lookup_dict 1).1
            (parse_flow_logs sample_log_file lookup_dict 1).2).
Proof.
  apply (proj2 (main_raises_iff sample_lookup_file sample_log_file 1)).
  repeat constructor; first [by left | by right].
Defined.

(** X16: with a lookup file the loader accepts and a log file without any
    line of at least 14 fields (an empty log file, for one), [main] still
    writes a report: the two headers and the empty line between them, and no
    row. *)
Theorem main_no_records (lookup_file log_file : list string) (verbosity : Z) :
  Forall loadable lookup_file ->
  (forall line, line ∈ log_file -> ¬ classified line) ->
  main lookup_file log_file verbosity = Ok empty_report.
Proof.
  intros Hf Hnone. destruct (load_lines_spec ∅ _ Hf) as (d & Hd & _).
  unfold main, load_lookup_table. rewrite Hd. simpl.
  unfold parse_flow_logs, run_flow_logs. rewrite foldl_no_records; [done|].
  unfold records. induction log_file as [|line log_file IH]; [done|].
  rewrite filter_cons, decide_False by (apply Hnone; left).
  apply IH. intros l Hl. apply Hnone. by right.
Qed.

Lemma main_no_records_witness :
  main sample_lookup_file ["too short" +:+ Py.nl; Py.nl] 2 = Ok empty_report.
Proof.
  apply (main_no_records sample_lookup_file ["too short" +:+ Py.nl; Py.nl] 2).
  - repeat constructor; first [by left | by right].
  - intros line Hin Hc.
    repeat (apply elem_of_cons in Hin as [->|Hin];
            [vm_compute in Hc; lia|]).
    by apply elem_of_nil in Hin.
Defined.

Section lookup_order.
Implicit Types (lookup_dict : lookup_table) (file : list string).

(** What a record resolves to, with a table loaded from a file. *)
Lemma resolve_tags_loaded file lookup_dict key :
  load_lookup_table file = Ok lookup_dict ->
  default [] (lookup_dict !! key) = tags_of_key key file /\
  resolve_tags lookup_dict key
  = if decide (tags_of_key key file = []) then ["Untagged"]
    else tags_of_key key file.
Proof.
  intros Hok. pose proof (load_lines_ok_loadable _ _ _ Hok) as Hf.
  destruct (load_lines_spec ∅ file Hf) as (d & Hd & Hkeys).
  unfold load_lookup_table in Hok. rewrite Hd in Hok. simplify_eq.
  destruct (Hkeys key) as [H1 H2]. rewrite lookup_empty in H1, H2.
  simpl in H1. split; [done|]. unfold resolve_tags.
  destruct (lookup_dict !! key) as [tags|] eqn:Hk; simpl in *.
  - rewrite <-H1. rewrite decide_False; [done|].
    intros ->. destruct (proj1 H2 (mk_is_Some _ _ eq_refl)) as [[? [=]]|?].
    by rewrite <-H1 in *.
  - by rewrite <-H1, decide_True.
Qed.

Lemma tags_of_key_cons key line file :
  tags_of_key key (line :: file) =
  match rule_of_line line with
  | Some (key', tag) =>
      if decide (key' = key) then tag :: tags_of_key key file
      else tags_of_key key file
  | None => tags_of_key key file
  end.
Proof.
  unfold tags_of_key. simpl.
  destruct (rule_of_line line) as [[key' tag]|]; simpl; [|done].
  by destruct (decide (key' = key)).
Qed.

Lemma occurrences_tags_of_key key tag file :
  occurrences tag (tags_of_key key file)
  = length (filter (fun line => rule_of_line line = Some (key, tag)) file).
Proof.
  induction file as [|line file IH]; [done|].
  rewrite tags_of_key_cons, (filter_cons _ line).
  destruct (rule_of_line line) as [[key' tag']|] eqn:Hr.
  - destruct (decide (key' = key)) as [->|Hne].
    + unfold occurrences in *. rewrite filter_cons.
      destruct (decide (tag' = tag)) as [->|Hnt].
      * rewrite decide_True by done. simpl. by rewrite IH.
      * by rewrite decide_False by congruence.
    + by rewrite decide_False by congruence.
  - by rewrite decide_False by done.
Qed.

Lemma occurrences_perm tag (tags1 tags2 : list string) :
  tags1 ≡ₚ tags2 -> occurrences tag tags1 = occurrences tag tags2.
Proof. unfold occurrences. by intros ->. Qed.

Lemma sum_list_with_ext {A} (f g : A -> nat) (l : list A) :
  (forall x, f x = g x) -> sum_list_with f l = sum_list_with g l.
Proof.
  intros Hfg. induction l as [|x l IH]; simpl; [done|]. by rewrite Hfg, IH.
Qed.

Lemma resolve_tags_perm file1 file2 lookup_dict1 lookup_dict2 key tag :
  file1 ≡ₚ file2 ->
  load_lookup_table file1 = Ok lookup_dict1 ->
  load_lookup_table file2 = Ok lookup_dict2 ->
  occurrences tag (resolve_tags lookup_dict1 key)
  = occurrences tag (resolve_tags lookup_dict2 key).
Proof.
  intros Hperm Hok1 Hok2.
  rewrite (proj2 (resolve_tags_loaded _ _ key Hok1)).
  rewrite (proj2 (resolve_tags_loaded _ _ key Hok2)).
  assert (tags_of_key key file1 ≡ₚ tags_of_key key file2) as Ht.
  { unfold tags_of_key. by rewrite Hperm. }
  destruct (decide (tags_of_key key file1 = [])) as [He|Hne].
  - rewrite He in Ht. apply Permutation_nil_l in Ht.
    by rewrite decide_True.
  - rewrite decide_False; [by apply occurrences_perm|].
    intros He. rewrite He in Ht. by apply Permutation_nil_r in Ht.
Qed.

End lookup_order.

(** X17: the loader does not merge repeated rules: in the table it returns,
    a tag stands under a key as many times as the file has well-formed lines
    giving that tag to that key. *)
Theorem load_lookup_table_repeats (lookup_file : list string)
    (lookup_dict : lookup_table) (key : lookup_key) (tag : string) :
  load_lookup_table lookup_file = Ok lookup_dict ->
  occurrences tag (default [] (lookup_dict !! key))
  = length (filter (fun line => rule_of_line line = Some (key, tag))
              lookup_file).
Proof.
  intros Hok. rewrite (proj1 (resolve_tags_loaded _ _ key Hok)).
  apply occurrences_tags_of_key.
Qed.

Lemma load_lookup_table_repeats_witness :
  exists lookup_dict,
    load_lookup_table ["25,tcp,mail" +:+ Py.nl; "25,TCP,Mail" +:+ Py.nl]
    = Ok lookup_dict /\
    occurrences "mail" (default [] (lookup_dict !! ("25", "tcp"))) = 2%nat.
Proof.
  exists {[ ("25", "tcp") := ["mail"; "mail"] ]}.
  assert (load_lookup_table ["25,tcp,mail" +:+ Py.nl; "25,TCP,Mail" +:+ Py.nl]
          = Ok {[ ("25", "tcp") := ["mail"; "mail"] ]}) as Hok
    by (vm_compute; reflexivity).
  split; [exact Hok|].
  exact (load_lookup_table_repeats _ _ ("25", "tcp") "mail" Hok).
Defined.

(** X18: the outcome of [main] depends neither on the order of the lines of
    the lookup file nor on the order of the lines of the log file: permuted
    inputs give the same report, or [ValueError] alike. *)
Theorem main_permutation (lookup_file1 lookup_file2 : list string)
    (log_file1 log_file2 : list string) (verbosity : Z) :
  lookup_file1 ≡ₚ lookup_file2 ->
  log_file1 ≡ₚ log_file2 ->
  main lookup_file1 log_file1 verbosity
  = main lookup_file2 log_file2 verbosity.
Proof.
  intros Hlookup Hlog.
  destruct (decide (Forall loadable lookup_file1)) as [Hf1|Hn1].
  - assert (Forall loadable lookup_file2) as Hf2 by (by rewrite <-Hlookup).
    destruct (load_lines_spec ∅ _ Hf1) as (d1 & Hd1 & _).
    destruct (load_lines_spec ∅ _ Hf2) as (d2 & Hd2 & _).
    unfold main, load_lookup_table. rewrite Hd1, Hd2.
    unfold mbind, result_bind.
    assert (parse_flow_logs log_file1 d1 verbosity
            = parse_flow_logs log_file2 d2 verbosity) as ->; [|done].
    destruct (run_flow_logs_positive log_file1 d1 verbosity) as [Ht1 Hp1].
    destruct (run_flow_logs_positive log_file2 d2 verbosity) as [Ht2 Hp2].
    unfold parse_flow_logs, run_flow_logs in *. simpl in *. f_equal.
    + apply positive_maps_eq; [done..|]. intros tag.
      rewrite !foldl_tag_count. unfold records. rewrite Hlog.
      do 2 f_equal. apply sum_list_with_ext. intros line.
      by apply (resolve_tags_perm lookup_file1 lookup_file2).
    + apply positive_maps_eq; [done..|]. intros key.
      rewrite !foldl_port_count. unfold records. by rewrite Hlog.
  - assert (¬ Forall loadable lookup_file2) as Hn2 by (by rewrite <-Hlookup).
    unfold main, load_lookup_table.
    by rewrite (load_lines_raise _ _ Hn1), (load_lines_raise _ _ Hn2).
Qed.

Lemma main_permutation_witness :
  main ["25,tcp,sv_p1" +:+ Py.nl; "25,tcp,mail" +:+ Py.nl]
       [sample_record "25" "6"; sample_record "9999" "17"] 1
  = main ["25,tcp,mail" +:+ Py.nl; "25,tcp,sv_p1" +:+ Py.nl]
         [sample_record "9999" "17"; sample_record "25" "6"] 1.
Proof.
  apply main_permutation; apply perm_swap.
Defined.
